(** * Verification of the search index client helpers

    Shallow embedding of
    [azure/search/documents/_index/_search_index_client.py]:
    the continuation-token codec ([pack_continuation_token],
    [unpack_continuation_token]), the result-row adapter
    ([convert_search_result]), the OData escaping helper ([odata]) and the
    request paths of [SearchIndexClient].

    Conventions of the embedding.
    - Python values are terms of [pyval]. A [str] is a Stdlib [string] whose
      characters are the code points below 256, and the content of a [bytes]
      object is a [string] of bytes. Where the code is handed either, a
      token, the two are told apart ([pydata]).
    - A [float] is identified by its [repr], the shortest decimal literal
      that reads back to it.
    - A [dict] is an association list in insertion order, as CPython keeps
      it; [dict_set] is [d[k] = v].
    - Mutable objects that the code shares by reference live in a [heap].
    - A call that may raise returns a [result].
    - The library routines that the module calls ([base64], [json],
      [str.format]) are embedded as CPython 3 runs them, on this fragment
      of values. *)

From Stdlib Require Import ZArith String Ascii List Bool Lia.
From Stdlib Require Import DecimalString DecimalZ DecimalPos DecimalFacts.
From stdpp Require Import gmap strings.

#[local] Set Warnings "-register-all".
#[local] Open Scope string_scope.

(** ** Exceptions and results *)

Inductive exn : Type :=
| TypeError
| ValueError
| KeyError (key : string)
| IndexError
| BinasciiError
| UnicodeDecodeError
| JSONDecodeError
| DeserializationError.

(** The outcome of a call. [Unmodelled] marks an input on which the library
    routine leaves the fragment embedded here (a text encoding other than
    UTF-8, a code point above 255, a conversion or format specification in a
    replacement field); nothing is claimed about such an outcome. *)
Inductive result (A : Type) : Type :=
| Ok (a : A)
| Raise (e : exn)
| Unmodelled.

Arguments Ok {A} a.
Arguments Raise {A} e.
Arguments Unmodelled {A}.

(** Sequencing: an exception raised by a step is the outcome of the whole
    block, since none of the modelled functions has a [try]. *)
#[global] Instance result_ret : MRet result := fun _ a => Ok a.

#[global] Instance result_bind : MBind result := fun _ _ k r =>
  match r with
  | Ok a => k a
  | Raise e => Raise e
  | Unmodelled => Unmodelled
  end.

(** ** Python values *)

Inductive pyval : Type :=
| VNone
| VBool (b : bool)
| VInt (z : Z)
| VFloat (repr : string)
| VStr (s : string)
| VList (items : list pyval)
| VDict (entries : list (string * pyval)).

Abbreviation pydict := (list (string * pyval)).

(** [d.get(k)] / the lookup behind [d[k]]. *)
Fixpoint dict_get {V : Type} (k : string) (d : list (string * V)) : option V :=
  match d with
  | [] => None
  | (k', v') :: d' => if String.eqb k' k then Some v' else dict_get k d'
  end.

(** [d[k] = v]: an existing key keeps its position, a new key goes last. *)
Fixpoint dict_set {V : Type} (k : string) (v : V) (d : list (string * V))
  : list (string * V) :=
  match d with
  | [] => [(k, v)]
  | (k', v') :: d' =>
      if String.eqb k' k then (k', v) :: d' else (k', v') :: dict_set k v d'
  end.

Definition dict_keys {V : Type} (d : list (string * V)) : list string :=
  map fst d.

(** [dict(pairs)]: later pairs overwrite earlier ones. *)
Definition dict_of_pairs {V : Type} (pairs : list (string * V))
  : list (string * V) :=
  fold_left (fun d kv => dict_set (fst kv) (snd kv) d) pairs [].

(** ** Text helpers *)

Definition is_digit (c : ascii) : bool :=
  Nat.leb 48 (nat_of_ascii c) && Nat.leb (nat_of_ascii c) 57.

Fixpoint all_chars (p : ascii -> bool) (s : string) : bool :=
  match s with
  | "" => true
  | String c r => p c && all_chars p r
  end.

(** [needle in hay] *)
Fixpoint contains (needle hay : string) : bool :=
  if String.prefix needle hay then true
  else match hay with
       | "" => false
       | String _ r => contains needle r
       end.

(** [int.__repr__] *)
Definition repr_int (z : Z) : string := NilZero.string_of_int (Z.to_int z).

(** ** The OData escaping helper *)

(** [value.replace("'", "''")] *)
Fixpoint escape_quotes (value : string) : string :=
  match value with
  | "" => ""
  | String c r =>
      if Ascii.eqb c "'" then String "'" (String "'" (escape_quotes r))
      else String c (escape_quotes r)
  end.

(** [format(value, "")], which is [str(value)] for the built-in types. The
    text of a list or dict needs [repr] of its items and is left out. *)
Definition str_of (v : pyval) : result string :=
  match v with
  | VNone => Ok "None"
  | VBool true => Ok "True"
  | VBool false => Ok "False"
  | VInt z => Ok (repr_int z)
  | VFloat r => Ok r
  | VStr s => Ok s
  | VList _ | VDict _ => Unmodelled
  end.

(** Characters that give a replacement field more than a plain name:
    nesting, index and attribute access, conversion, format specification. *)
Definition field_special (c : ascii) : bool :=
  existsb (Ascii.eqb c) ["{"; "["; "]"; "."; "!"; ":"]%char.

(** The largest index, on a 64-bit build. *)
Definition PY_SSIZE_T_MAX : Z := 9223372036854775807.

Definition digit_value (c : ascii) : Z := Z.of_nat (nat_of_ascii c) - 48.

(** [get_integer] of the format parser, on a string of digits: the number
    written, read digit by digit, or nothing when it passes the largest
    index (too many decimal digits). *)
Fixpoint get_integer (accumulator : Z) (digits : string) : option Z :=
  match digits with
  | "" => Some accumulator
  | String c r =>
      let digitval := digit_value c in
      if (accumulator >? (PY_SSIZE_T_MAX - digitval) / 10)%Z then None
      else get_integer (accumulator * 10 + digitval) r
  end.

(** The replacement of the field [{name}]. An empty or numeric name refers
    to a positional argument, and [odata] passes none; a number beyond the
    largest index is refused before the argument is looked for. *)
Definition format_field (name : string) (kw : pydict) : result string :=
  if existsb field_special (list_ascii_of_string name) then Unmodelled
  else if all_chars is_digit name then
    match get_integer 0 name with
    | Some _ => Raise IndexError
    | None => Raise ValueError
    end
  else match dict_get name kw with
       | Some v => str_of v
       | None => Raise (KeyError name)
       end.

(** [str.format] applied to the keyword arguments [kw]. Outside a field,
    [{{] and [}}] stand for one brace and a lone [}] is an error. Inside a
    field ([field = Some acc], the characters of the field read so far) the
    text runs to the next [}]. *)
Fixpoint str_format_from (field : option string) (s : string) (kw : pydict)
  : result string :=
  match field, s with
  | None, "" => Ok ""
  | None, String "{" (String "{" r) =>
      out ← str_format_from None r kw; Ok (String "{" out)
  | None, String "{" r => str_format_from (Some "") r kw
  | None, String "}" (String "}" r) =>
      out ← str_format_from None r kw; Ok (String "}" out)
  | None, String "}" _ => Raise ValueError
  | None, String c r =>
      out ← str_format_from None r kw; Ok (String c out)
  | Some _, "" => Raise ValueError
  | Some acc, String "}" r =>
      text ← format_field acc kw;
      out ← str_format_from None r kw;
      Ok (text ++ out)
  | Some acc, String c r => str_format_from (Some (acc ++ String c "")) r kw
  end.

Definition str_format (statement : string) (kw : pydict) : result string :=
  str_format_from None statement kw.

(** The body of the loop of [odata] for one key. *)
Definition odata_step (statement : string) (kw : pydict) (key : string)
  : pydict :=
  match dict_get key kw with
  | Some (VStr value) =>
      let value := escape_quotes value in
      if negb (contains ("'{" ++ key ++ "}'") statement)
      then dict_set key (VStr ("'" ++ value ++ "'")) kw
      else kw
  | _ => kw
  end.

Definition odata (statement : string) (kwargs : pydict) : result string :=
  let kw := kwargs in
  let kw := fold_left (odata_step statement) (dict_keys kw) kw in
  str_format statement kw.

(** ** Base64 *)

(** The alphabet, [table_b2a_base64] of CPython's [binascii]. *)
Definition table_b2a_base64 : string :=
  "ABCDEFGHIJKLMNOPQRSTUVWXYZabcdefghijklmnopqrstuvwxyz0123456789+/".

Definition BASE64_PAD : ascii := "="%char.

(** The character of a six-bit value. *)
Definition b2a (v : ascii) : ascii :=
  match String.get (nat_of_ascii v) table_b2a_base64 with
  | Some c => c
  | None => BASE64_PAD
  end.

(** [table_a2b_base64]: the six-bit value of an alphabet character, nothing
    for any other byte. *)
Definition a2b (c : ascii) : option ascii :=
  let n := nat_of_ascii c in
  if Nat.leb 65 n && Nat.leb n 90 then Some (ascii_of_nat (n - 65))
  else if Nat.leb 97 n && Nat.leb n 122 then Some (ascii_of_nat (n - 71))
  else if Nat.leb 48 n && Nat.leb n 57 then Some (ascii_of_nat (n + 4))
  else if Nat.eqb n 43 then Some (ascii_of_nat 62)
  else if Nat.eqb n 47 then Some (ascii_of_nat 63)
  else None.

(** The four six-bit values of three bytes; a byte is [Ascii b0 .. b7] with
    [b0] its lowest bit. *)
Definition sextet1 (a : ascii) : ascii :=
  let '(Ascii _ _ a2 a3 a4 a5 a6 a7) := a in
  Ascii a2 a3 a4 a5 a6 a7 false false.

Definition sextet2 (a b : ascii) : ascii :=
  let '(Ascii a0 a1 _ _ _ _ _ _) := a in
  let '(Ascii _ _ _ _ b4 b5 b6 b7) := b in
  Ascii b4 b5 b6 b7 a0 a1 false false.

Definition sextet3 (b c : ascii) : ascii :=
  let '(Ascii b0 b1 b2 b3 _ _ _ _) := b in
  let '(Ascii _ _ _ _ _ _ c6 c7) := c in
  Ascii c6 c7 b0 b1 b2 b3 false false.

Definition sextet4 (c : ascii) : ascii :=
  let '(Ascii c0 c1 c2 c3 c4 c5 _ _) := c in
  Ascii c0 c1 c2 c3 c4 c5 false false.

(** [base64.b64encode]: three bytes give four characters, and a last group of
    one or two bytes is padded with [=]. *)
Fixpoint b64encode (s : string) : string :=
  match s with
  | "" => ""
  | String a "" =>
      String (b2a (sextet1 a)) (String (b2a (sextet2 a zero))
        (String BASE64_PAD (String BASE64_PAD "")))
  | String a (String b "") =>
      String (b2a (sextet1 a)) (String (b2a (sextet2 a b))
        (String (b2a (sextet3 b zero)) (String BASE64_PAD "")))
  | String a (String b (String c r)) =>
      String (b2a (sextet1 a)) (String (b2a (sextet2 a b))
        (String (b2a (sextet3 b c)) (String (b2a (sextet4 c)) (b64encode r))))
  end.

(** The position in the current group of four characters, with the bits
    left over from the characters read ([quad_pos] and [leftchar]). *)
Inductive quad : Type :=
| Q0
| Q1 (leftchar : ascii)
| Q2 (leftchar : ascii)
| Q3 (leftchar : ascii).

Definition quad_pos (q : quad) : nat :=
  match q with
  | Q0 => 0
  | Q1 _ => 1
  | Q2 _ => 2
  | Q3 _ => 3
  end.

(** [(leftchar << 2) | (this_ch >> 4)], leaving [this_ch & 0x0f] *)
Definition byte1 (l v : ascii) : ascii :=
  let '(Ascii l0 l1 l2 l3 l4 l5 _ _) := l in
  let '(Ascii _ _ _ _ v4 v5 _ _) := v in
  Ascii v4 v5 l0 l1 l2 l3 l4 l5.

Definition low4 (v : ascii) : ascii :=
  let '(Ascii v0 v1 v2 v3 _ _ _ _) := v in
  Ascii v0 v1 v2 v3 false false false false.

(** [(leftchar << 4) | (this_ch >> 2)], leaving [this_ch & 0x03] *)
Definition byte2 (l v : ascii) : ascii :=
  let '(Ascii l0 l1 l2 l3 _ _ _ _) := l in
  let '(Ascii _ _ v2 v3 v4 v5 _ _) := v in
  Ascii v2 v3 v4 v5 l0 l1 l2 l3.

Definition low2 (v : ascii) : ascii :=
  let '(Ascii v0 v1 _ _ _ _ _ _) := v in
  Ascii v0 v1 false false false false false false.

(** [(leftchar << 6) | this_ch] *)
Definition byte3 (l v : ascii) : ascii :=
  let '(Ascii l0 l1 _ _ _ _ _ _) := l in
  let '(Ascii v0 v1 v2 v3 v4 v5 _ _) := v in
  Ascii v0 v1 v2 v3 v4 v5 l0 l1.

(** [binascii.a2b_base64] without strict mode, as CPython 3.9 and later have
    it. Bytes outside the alphabet are skipped; a [=] counts as padding from
    the third position of a group on, and padding that completes the group
    ends the data; data that stops inside a group is an error. *)
Fixpoint a2b_base64 (s : string) (q : quad) (pads : nat) : result string :=
  match s with
  | "" =>
      match q with
      | Q0 => Ok ""
      | _ => Raise BinasciiError
      end
  | String this_ch r =>
      if Ascii.eqb this_ch BASE64_PAD then
        if Nat.leb 2 (quad_pos q) then
          if Nat.leb 4 (quad_pos q + S pads) then Ok ""
          else a2b_base64 r q (S pads)
        else a2b_base64 r q pads
      else
        match a2b this_ch with
        | None => a2b_base64 r q pads
        | Some v =>
            match q with
            | Q0 => a2b_base64 r (Q1 v) 0
            | Q1 l =>
                out ← a2b_base64 r (Q2 (low4 v)) 0; Ok (String (byte1 l v) out)
            | Q2 l =>
                out ← a2b_base64 r (Q3 (low2 v)) 0; Ok (String (byte2 l v) out)
            | Q3 l =>
                out ← a2b_base64 r Q0 0; Ok (String (byte3 l v) out)
            end
        end
  end.

(** What [base64.b64decode] is given here: a [bytes] object or a [str]. *)
Inductive pydata : Type :=
| Bytes (b : string)
| Str (s : string).

Definition is_ascii (c : ascii) : bool := Nat.ltb (nat_of_ascii c) 128.

(** [_bytes_from_decode_data] of [base64]: a [str] is encoded as ASCII, and
    refused when it has any other character. *)
Definition _bytes_from_decode_data (s : pydata) : result string :=
  match s with
  | Bytes b => Ok b
  | Str s => if all_chars is_ascii s then Ok s else Raise ValueError
  end.

(** [base64.b64decode(s)], with the default [validate=False]. *)
Definition b64decode (s : pydata) : result string :=
  s ← _bytes_from_decode_data s; a2b_base64 s Q0 0.


(** A six-bit value: the two high bits are clear. *)
Definition is_sextet (v : ascii) : Prop :=
  exists b0 b1 b2 b3 b4 b5, v = Ascii b0 b1 b2 b3 b4 b5 false false.

(** The characters of a token: the alphabet and the padding sign. *)
Definition is_b64_char (c : ascii) : bool :=
  match a2b c with
  | Some _ => true
  | None => Ascii.eqb c BASE64_PAD
  end.

(** ** UTF-8 *)

(** [str.encode("utf-8")] on code points below 256: one byte below 128,
    otherwise [0xC0 | (c >> 6)] and [0x80 | (c & 0x3F)]. *)
Fixpoint encode_utf8 (s : string) : string :=
  match s with
  | "" => ""
  | String (Ascii _ _ _ _ _ _ _ false as c) r => String c (encode_utf8 r)
  | String (Ascii c0 c1 c2 c3 c4 c5 c6 true) r =>
      String (Ascii c6 true false false false false true true)
        (String (Ascii c0 c1 c2 c3 c4 c5 false true) (encode_utf8 r))
  end.

(** [bytes.decode("utf-8")]. A lead byte from [0xC4] to [0xF4] starts a code
    point above 255 or an ill-formed sequence; both are left out. *)
Fixpoint decode_utf8 (b : string) : result string :=
  match b with
  | "" => Ok ""
  | String (Ascii _ _ _ _ _ _ _ false as c) r =>
      out ← decode_utf8 r; Ok (String c out)
  | String (Ascii c6 true false false false false true true)
      (String (Ascii c0 c1 c2 c3 c4 c5 false true) r) =>
      out ← decode_utf8 r; Ok (String (Ascii c0 c1 c2 c3 c4 c5 c6 true) out)
  | String c _ =>
      if Nat.leb 196 (nat_of_ascii c) && Nat.leb (nat_of_ascii c) 244
      then Unmodelled
      else Raise UnicodeDecodeError
  end.

(** [json.detect_encoding]: [true] when the bytes are read as UTF-8, that
    is, when they carry no byte order mark and no NUL among the first
    bytes. *)
Definition detect_utf8 (b : string) : bool :=
  let is0 (c : ascii) := Ascii.eqb c zero in
  if String.prefix (String "239" (String "187" (String "191" ""))) b then false
  else if String.prefix (String "254" (String "255" "")) b then false
  else if String.prefix (String "255" (String "254" "")) b then false
  else if String.prefix (String zero (String zero (String "254" (String "255" "")))) b
  then false
  else match b with
       | String b0 (String b1 "") => negb (is0 b0 || is0 b1)
       | String b0 (String b1 (String _ (String _ _))) => negb (is0 b0 || is0 b1)
       | _ => true
       end.

(** ** JSON *)

Definition dquote : ascii := "034"%char.
Definition backslash : ascii := "\"%char.

Definition hex_digits : string := "0123456789abcdef".

Definition hex_digit (n : nat) : ascii :=
  match String.get n hex_digits with
  | Some c => c
  | None => "0"%char
  end.

Definition hex_value (c : ascii) : option nat :=
  let n := nat_of_ascii c in
  if Nat.leb 48 n && Nat.leb n 57 then Some (n - 48)
  else if Nat.leb 97 n && Nat.leb n 102 then Some (n - 87)
  else if Nat.leb 65 n && Nat.leb n 70 then Some (n - 55)
  else None.

(** The replacement of one character by [encode_basestring_ascii]:
    [ESCAPE_DCT] for the quote, the backslash and the named controls, the
    character itself from the space to the tilde, else [\u00XX]. *)
Definition escape_char (c : ascii) : string :=
  let n := nat_of_ascii c in
  if Ascii.eqb c dquote then String backslash (String dquote "")
  else if Ascii.eqb c backslash then String backslash (String backslash "")
  else if Nat.eqb n 10 then String backslash "n"
  else if Nat.eqb n 13 then String backslash "r"
  else if Nat.eqb n 9 then String backslash "t"
  else if Nat.eqb n 8 then String backslash "b"
  else if Nat.eqb n 12 then String backslash "f"
  else if Nat.leb 32 n && Nat.leb n 126 then String c ""
  else String backslash
         (String "u" (String "0" (String "0"
            (String (hex_digit (n / 16)) (String (hex_digit (n mod 16)) ""))))).

Fixpoint escape_chars (s : string) : string :=
  match s with
  | "" => ""
  | String c r => escape_char c ++ escape_chars r
  end.

Definition encode_basestring_ascii (s : string) : string :=
  String dquote (escape_chars s ++ String dquote "").

(** [float.__repr__] as the encoder writes it: the three non-finite values
    have JavaScript names. *)
Definition floatstr (repr : string) : string :=
  if String.eqb repr "nan" then "NaN"
  else if String.eqb repr "inf" then "Infinity"
  else if String.eqb repr "-inf" then "-Infinity"
  else repr.

(** [json.dumps] with its defaults: [ensure_ascii], [", "] between items and
    [": "] after a key. *)
Fixpoint json_dumps (v : pyval) : string :=
  match v with
  | VNone => "null"
  | VBool true => "true"
  | VBool false => "false"
  | VInt z => repr_int z
  | VFloat repr => floatstr repr
  | VStr s => encode_basestring_ascii s
  | VList [] => "[]"
  | VList (x :: xs) =>
      "[" ++ json_dumps x ++
      (fix tail (xs : list pyval) : string :=
         match xs with
         | [] => "]"
         | y :: ys => ", " ++ json_dumps y ++ tail ys
         end) xs
  | VDict [] => "{}"
  | VDict ((k, x) :: ms) =>
      "{" ++ encode_basestring_ascii k ++ ": " ++ json_dumps x ++
      (fix tail (ms : list (string * pyval)) : string :=
         match ms with
         | [] => "}"
         | (k, y) :: ms' =>
             ", " ++ encode_basestring_ascii k ++ ": " ++ json_dumps y ++ tail ms'
         end) ms
  end.

(** The escapes of [BACKSLASH] in [json.decoder]. *)
Definition unescape (esc : ascii) : option ascii :=
  if Ascii.eqb esc dquote then Some dquote
  else if Ascii.eqb esc backslash then Some backslash
  else if Ascii.eqb esc "/" then Some "/"%char
  else if Ascii.eqb esc "b" then Some "008"%char
  else if Ascii.eqb esc "f" then Some "012"%char
  else if Ascii.eqb esc "n" then Some "010"%char
  else if Ascii.eqb esc "r" then Some "013"%char
  else if Ascii.eqb esc "t" then Some "009"%char
  else None.

(** [_decode_uXXXX]: the value of four hexadecimal digits. *)
Definition decode_uXXXX (h1 h2 h3 h4 : ascii) : option nat :=
  match hex_value h1, hex_value h2, hex_value h3, hex_value h4 with
  | Some a, Some b, Some c, Some d => Some (((a * 16 + b) * 16 + c) * 16 + d)
  | _, _, _, _ => None
  end.

(** [scanstring], from the character after the opening quote: the decoded
    string and the input after the closing quote. Strict: a control
    character must be escaped. *)
Fixpoint scanstring (s : string) : result (string * string) :=
  match s with
  | "" => Raise JSONDecodeError
  | String c r =>
      if Ascii.eqb c dquote then Ok ("", r)
      else if Ascii.eqb c backslash then
        match r with
        | "" => Raise JSONDecodeError
        | String esc r1 =>
            if Ascii.eqb esc "u" then
              match r1 with
              | String h1 (String h2 (String h3 (String h4 r2))) =>
                  match decode_uXXXX h1 h2 h3 h4 with
                  | None => Raise JSONDecodeError
                  | Some uni =>
                      if Nat.ltb uni 256 then
                        '(out, rest) ← scanstring r2;
                        Ok (String (ascii_of_nat uni) out, rest)
                      else Unmodelled
                  end
              | _ => Raise JSONDecodeError
              end
            else
              match unescape esc with
              | None => Raise JSONDecodeError
              | Some char =>
                  '(out, rest) ← scanstring r1; Ok (String char out, rest)
              end
        end
      else if Nat.ltb (nat_of_ascii c) 32 then Raise JSONDecodeError
      else '(out, rest) ← scanstring r; Ok (String c out, rest)
  end.

Definition is_ws (c : ascii) : bool :=
  existsb (Ascii.eqb c) [" "; "009"; "010"; "013"]%char.

(** [WHITESPACE.match(s, end).end()] *)
Fixpoint skip_ws (s : string) : string :=
  match s with
  | "" => ""
  | String c r => if is_ws c then skip_ws r else s
  end.

(** The longest run of digits at the head of [s], and what follows. *)
Fixpoint span_digits (s : string) : string * string :=
  match s with
  | "" => ("", "")
  | String c r =>
      if is_digit c
      then let '(ds, rest) := span_digits r in (String c ds, rest)
      else ("", s)
  end.

(** The three groups of [NUMBER_RE]: an optional minus sign with either a
    single 0 or digits that do not start with 0; an optional point with
    digits; an optional exponent mark, sign and digits. *)
Definition scan_digits1 (s : string) : option (string * string) :=
  match s with
  | "" => None
  | String c r =>
      if Ascii.eqb c "0" then Some ("0", r)
      else if is_digit c then Some (span_digits s)
      else None
  end.

Definition scan_integer (s : string) : option (string * string) :=
  match s with
  | "" => None
  | String c r =>
      if Ascii.eqb c "-" then
        match scan_digits1 r with
        | Some (ds, rest) => Some (String "-" ds, rest)
        | None => None
        end
      else scan_digits1 s
  end.

Definition scan_frac (s : string) : string * string :=
  match s with
  | "" => ("", s)
  | String c r =>
      if Ascii.eqb c "." then
        match span_digits r with
        | ("", _) => ("", s)
        | (ds, rest) => (String "." ds, rest)
        end
      else ("", s)
  end.

Definition scan_sign (s : string) : string * string :=
  match s with
  | "" => ("", s)
  | String c r =>
      if Ascii.eqb c "+" || Ascii.eqb c "-" then (String c "", r) else ("", s)
  end.

Definition scan_exp (s : string) : string * string :=
  match s with
  | "" => ("", s)
  | String c r =>
      if Ascii.eqb c "e" || Ascii.eqb c "E" then
        let '(sign, r1) := scan_sign r in
        match span_digits r1 with
        | ("", _) => ("", s)
        | (ds, rest) => (String c (sign ++ ds), rest)
        end
      else ("", s)
  end.

(** [int(integer)] on the text of the first group. *)
Definition int_of_text (integer : string) : Z :=
  match NilZero.int_of_string integer with
  | Some i => Z.of_int i
  | None => 0%Z
  end.

(** [match_number] and the conversion that follows it: an [int] when the
    literal has neither fraction nor exponent, else the [float] it reads
    as. *)
Definition match_number (s : string) : option (pyval * string) :=
  match scan_integer s with
  | None => None
  | Some (integer, r) =>
      let '(frac, r1) := scan_frac r in
      let '(exp, r2) := scan_exp r1 in
      match frac ++ exp with
      | "" => Some (VInt (int_of_text integer), r2)
      | _ => Some (VFloat (integer ++ frac ++ exp), r2)
      end
  end.

(** [s] without its prefix [word], when it has it. *)
Fixpoint strip_prefix (word s : string) : option string :=
  match word, s with
  | "", _ => Some s
  | String a word, String b s =>
      if Ascii.eqb a b then strip_prefix word s else None
  | String _ _, "" => None
  end.

(** The constants and numbers of the scanner, tried in its order. *)
Definition scan_constant (s : string) : option (pyval * string) :=
  let try (word : string) (v : pyval) : option (pyval * string) :=
    match strip_prefix word s with
    | Some rest => Some (v, rest)
    | None => None
    end in
  match try "null" VNone with Some r => Some r | None =>
  match try "true" (VBool true) with Some r => Some r | None =>
  match try "false" (VBool false) with Some r => Some r | None =>
  match match_number s with Some r => Some r | None =>
  match try "NaN" (VFloat "nan") with Some r => Some r | None =>
  match try "Infinity" (VFloat "inf") with Some r => Some r | None =>
  try "-Infinity" (VFloat "-inf")
  end end end end end end.

(** [scan_once], [JSONArray] and [JSONObject]. The three call one another
    on what is left of the input; [fuel] bounds the nesting of these calls.
    [json_decode] starts them with more fuel than the input has characters,
    which is enough for every printed value ([size_le_length]). *)
Fixpoint scan_once (fuel : nat) (s : string) : result (pyval * string) :=
  match fuel with
  | 0 => Unmodelled
  | S fuel =>
      match s with
      | "" => Raise JSONDecodeError
      | String c r =>
          if Ascii.eqb c dquote then
            '(str, rest) ← scanstring r; Ok (VStr str, rest)
          else if Ascii.eqb c "{" then
            match skip_ws r with
            | "" => Raise JSONDecodeError
            | String c1 r1 =>
                if Ascii.eqb c1 "}" then Ok (VDict [], r1)
                else if Ascii.eqb c1 dquote then
                  '(pairs, rest) ← object_members fuel r1;
                  Ok (VDict (dict_of_pairs pairs), rest)
                else Raise JSONDecodeError
            end
          else if Ascii.eqb c "[" then
            match skip_ws r with
            | "" => Raise JSONDecodeError
            | String c1 r1 =>
                if Ascii.eqb c1 "]" then Ok (VList [], r1)
                else
                  '(values, rest) ← array_items fuel (String c1 r1);
                  Ok (VList values, rest)
            end
          else
            match scan_constant s with
            | Some r => Ok r
            | None => Raise JSONDecodeError
            end
      end
  end

with array_items (fuel : nat) (s : string) : result (list pyval * string) :=
  match fuel with
  | 0 => Unmodelled
  | S fuel =>
      '(value, r) ← scan_once fuel s;
      match skip_ws r with
      | "" => Raise JSONDecodeError
      | String c r1 =>
          if Ascii.eqb c "]" then Ok ([value], r1)
          else if Ascii.eqb c "," then
            '(values, rest) ← array_items fuel (skip_ws r1);
            Ok (value :: values, rest)
          else Raise JSONDecodeError
      end
  end

with object_members (fuel : nat) (s : string)
  : result (list (string * pyval) * string) :=
  match fuel with
  | 0 => Unmodelled
  | S fuel =>
      '(key, r) ← scanstring s;
      match skip_ws r with
      | "" => Raise JSONDecodeError
      | String c r1 =>
          if Ascii.eqb c ":" then
            '(value, r2) ← scan_once fuel (skip_ws r1);
            match skip_ws r2 with
            | "" => Raise JSONDecodeError
            | String c2 r3 =>
                if Ascii.eqb c2 "}" then Ok ([(key, value)], r3)
                else if Ascii.eqb c2 "," then
                  match skip_ws r3 with
                  | "" => Raise JSONDecodeError
                  | String c3 r4 =>
                      if Ascii.eqb c3 dquote then
                        '(pairs, rest) ← object_members fuel r4;
                        Ok ((key, value) :: pairs, rest)
                      else Raise JSONDecodeError
                  end
                else Raise JSONDecodeError
            end
          else Raise JSONDecodeError
      end
  end.

(** [JSONDecoder.decode]: one value, white space around it, nothing else. *)
Definition json_decode (s : string) : result pyval :=
  '(obj, rest) ← scan_once (S (String.length s)) (skip_ws s);
  match skip_ws rest with
  | "" => Ok obj
  | _ => Raise JSONDecodeError
  end.

(** [json.loads] of [bytes]. *)
Definition json_loads (b : string) : result pyval :=
  if detect_utf8 b then text ← decode_utf8 b; json_decode text
  else Unmodelled.

(** ** Well-formed JSON values and the shape of the printed text *)

(** What may follow a value in the output of [json_dumps]. *)
Definition terminated (rest : string) : bool :=
  match rest with
  | "" => true
  | String c _ => existsb (Ascii.eqb c) [","; "]"; "}"]%char
  end.

(** A scanner result with [rest] put back behind what was left. *)
Definition extend {A : Type} (rest : string) (r : A * string) : A * string :=
  (r.1, r.2 ++ rest).

(** The first character of a number. *)
Definition number_start (c : ascii) : bool := Ascii.eqb c "-" || is_digit c.

(** The first character of a printed value starts a value. *)
Definition value_start (c : ascii) : bool :=
  negb (is_ws c) && negb (Ascii.eqb c "]").

(** The [repr] of a float as a JSON value: one of the three non-finite
    names, or a literal that the scanner reads whole as a float. *)
Definition is_float_repr (repr : string) : bool :=
  String.eqb repr "nan" || String.eqb repr "inf" || String.eqb repr "-inf" ||
  match match_number repr with
  | Some (VFloat lit, "") => String.eqb lit repr
  | _ => false
  end.

(** No key occurs twice. *)
Fixpoint distinct (keys : list string) : bool :=
  match keys with
  | [] => true
  | k :: keys => negb (existsb (String.eqb k) keys) && distinct keys
  end.

(** The values that [json.dumps] and [json.loads] carry back and forth
    unchanged: float literals are well-formed and objects have distinct
    keys, at every depth. *)
Fixpoint json_ok (v : pyval) : bool :=
  match v with
  | VFloat repr => is_float_repr repr
  | VList items => forallb json_ok items
  | VDict entries =>
      distinct (dict_keys entries) && forallb (fun kv => json_ok (snd kv)) entries
  | _ => true
  end.

(** A bound on the nesting of scanner calls that reading the printed value
    takes. *)
Fixpoint json_size (v : pyval) : nat :=
  match v with
  | VList items => S (list_sum (map (fun x => S (json_size x)) items))
  | VDict entries => S (list_sum (map (fun kv => S (json_size (snd kv))) entries))
  | _ => 1
  end.

(** The text after the first item of an array, and after the first member
    of an object: the inner loops of [json_dumps]. *)
Definition dump_items : list pyval -> string :=
  fix tail (xs : list pyval) : string :=
    match xs with
    | [] => "]"
    | y :: ys => ", " ++ json_dumps y ++ tail ys
    end.

Definition dump_members : list (string * pyval) -> string :=
  fix tail (ms : list (string * pyval)) : string :=
    match ms with
    | [] => "}"
    | (k, y) :: ms' =>
        ", " ++ encode_basestring_ascii k ++ ": " ++ json_dumps y ++ tail ms'
    end.

(** Reading back the printed value, in front of a delimiter and with
    enough fuel: the statement proved by induction on the value. *)
Definition reads_back (v : pyval) : Prop :=
  json_ok v = true ->
  forall fuel rest,
    json_size v <= fuel -> terminated rest = true ->
    scan_once fuel (json_dumps v ++ rest) = Ok (v, rest).

Definition need_items (xs : list pyval) : nat :=
  list_sum (map (fun x => S (json_size x)) xs).

Definition need_members (ms : list (string * pyval)) : nat :=
  list_sum (map (fun kv => S (json_size (snd kv))) ms).

(** Induction on values that reaches the items of lists and dicts. *)
Section PyvalInd.

Variable P : pyval -> Prop.
Hypothesis HNone : P VNone.
Hypothesis HBool : forall b, P (VBool b).
Hypothesis HInt : forall z, P (VInt z).
Hypothesis HFloat : forall r, P (VFloat r).
Hypothesis HStr : forall s, P (VStr s).
Hypothesis HList : forall items, Forall P items -> P (VList items).
Hypothesis HDict :
  forall entries, Forall (fun kv => P (snd kv)) entries -> P (VDict entries).

Fixpoint pyval_nested_ind (v : pyval) : P v :=
  match v with
  | VNone => HNone
  | VBool b => HBool b
  | VInt z => HInt z
  | VFloat r => HFloat r
  | VStr s => HStr s
  | VList items =>
      HList items
        ((fix all (l : list pyval) : Forall P l :=
            match l with
            | [] => @List.Forall_nil _ P
            | x :: l' => @List.Forall_cons _ P x l' (pyval_nested_ind x) (all l')
            end) items)
  | VDict entries =>
      HDict entries
        ((fix all (l : list (string * pyval)) : Forall (fun kv => P (snd kv)) l :=
            match l with
            | [] => @List.Forall_nil _ (fun kv => P (snd kv))
            | kv :: l' =>
                @List.Forall_cons _ (fun kv => P (snd kv)) kv l'
                  (pyval_nested_ind (snd kv)) (all l')
            end) entries)
  end.

End PyvalInd.

(** ** The object store *)

Abbreviation loc := nat.

Abbreviation heap := (gmap loc pydict).

(** [obj[k] = v] on the dict object at [l]. *)
Definition setitem (l : loc) (k : string) (v : pyval) (h : heap) : heap :=
  alter (dict_set k v) l h.

(** ** Result rows *)

(** A raw [SearchResult] of the generated models: the free-form field bag is
    a dict object held by reference. *)
Record SearchResult : Type := {
  additional_properties : loc;
  score : pyval;
  highlights : pyval;
}.

Definition search_score : string := "@search.score".
Definition search_highlights : string := "@search.highlights".

Definition convert_search_result (result : SearchResult) (h : heap) : loc * heap :=
  let ret := additional_properties result in
  let h := setitem ret search_score (score result) h in
  let h := setitem ret search_highlights (highlights result) h in
  (ret, h).

(** The field bag once the two reserved keys have been stored in it. *)
Definition adapted_bag (result : SearchResult) (bag : pydict) : pydict :=
  dict_set search_highlights (highlights result)
    (dict_set search_score (score result) bag).

(** The row of the specification's example: score 3.5, one highlighted
    field, and the field bag [{"id": "1"}] stored at location 0. *)
Definition example_row : SearchResult :=
  {| additional_properties := 0;
     score := VFloat "3.5";
     highlights := VDict [("title", VList [VStr "foo"])] |}.

Definition example_heap : heap := {[ 0 := [("id", VStr "1")] ]}.

(** A row whose service response carried no highlights. *)
Definition plain_row : SearchResult :=
  {| additional_properties := 0; score := VFloat "3.5"; highlights := VNone |}.

(** ** Protocol models *)

(** The interface of a generated model class that the client uses: the
    [serialize] method of an instance and the [deserialize] class method.
    The generated [SearchRequest] is not part of the sources; the codec is
    stated over any type with this interface. *)
Class ProtocolModel (T : Type) : Type := {
  serialize : T -> pyval;
  deserialize : pyval -> result T;
}.

(** What the codec relies on: a serialized model is a JSON object that
    [json] carries unchanged, and [deserialize] reads it back. *)
Class ProtocolModelLaws (T : Type) `{!ProtocolModel T} : Prop := {
  serialize_object : forall x : T, exists d, serialize x = VDict d;
  serialize_json : forall x : T, json_ok (serialize x) = true;
  deserialize_serialize : forall x : T, deserialize (serialize x) = Ok x;
}.

(** ** The continuation-token codec *)

(** [obj[key]] for a string [key]. Only a dict can be indexed this way. *)
Definition getitem (obj : pyval) (key : string) : result pyval :=
  match obj with
  | VDict d =>
      match dict_get key d with
      | Some v => Ok v
      | None => Raise (KeyError key)
      end
  | _ => Raise TypeError
  end.

(** The assignment [a, b = v]: [v] is iterated and must yield two items. *)
Definition unpack_pair (v : pyval) : result (pyval * pyval) :=
  match v with
  | VStr (String a (String b "")) => Ok (VStr (String a ""), VStr (String b ""))
  | VList [a; b] => Ok (a, b)
  | VDict [(a, _); (b, _)] => Ok (VStr a, VStr b)
  | VStr _ | VList _ | VDict _ => Raise ValueError
  | VNone | VBool _ | VInt _ | VFloat _ => Raise TypeError
  end.

Definition api_version : string := "2019-05-06-Preview".

(** The encoding of [pack_continuation_token], for any JSON value:
    [b64encode] returns [bytes]. *)
Definition encode_token (obj : pyval) : pydata :=
  Bytes (b64encode (encode_utf8 (json_dumps obj))).

Section Codec.

Context {SearchRequest : Type} `{!ProtocolModel SearchRequest}.

(** A deserialized [SearchDocumentsResult], as far as the client reads it.
    The service sends the link together with the paging parameters, and the
    link is read only when the parameters are there. *)
Record SearchDocumentsResult : Type := {
  next_link : string;
  next_page_parameters : option SearchRequest;
  results : list SearchResult;
}.

(** The dict that [pack_continuation_token] encodes. *)
Definition token_object (link : string) (parameters : SearchRequest) : pyval :=
  VDict [("apiVersion", VStr api_version);
         ("nextLink", VStr link);
         ("nextPageParameters", serialize parameters)].

Definition pack_continuation_token (response : SearchDocumentsResult)
  : option pydata :=
  match next_page_parameters response with
  | Some parameters =>
      let token := token_object (next_link response) parameters in
      Some (Bytes (b64encode (encode_utf8 (json_dumps token))))
  | None => None
  end.

Definition unpack_continuation_token (token : pydata) : result pyval :=
  unpacked_token ← b64decode token ≫= json_loads;
  next_link ← getitem unpacked_token "nextLink";
  next_page_parameters ← getitem unpacked_token "nextPageParameters";
  next_page_request ← deserialize next_page_parameters;
  Ok next_link.

(** The callback that [search] hands to the transport. Its argument
    defaults to [None], which [b64decode] refuses. *)
Definition _unpack_next_link (next_link : option pydata) : result pyval :=
  match next_link with
  | None => Raise TypeError
  | Some token =>
      '(_next_link, _) ← unpack_continuation_token token ≫= unpack_pair;
      Ok _next_link
  end.

(** The other callback, from the deserialized response on: the token of the
    page and its adapted rows. *)
Definition _extract_data_cb (_response : SearchDocumentsResult) (h : heap)
  : option pydata * list loc * heap :=
  let continuation_token := pack_continuation_token _response in
  let '(rows, h) :=
    fold_left
      (fun '(rows, h) r =>
         let '(ret, h) := convert_search_result r h in ((rows ++ [ret])%list, h))
      (results _response) ([], h) in
  (continuation_token, rows, h).

End Codec.

(** Modelled from the spec: a paging-continuation object holding the search
    text, the filter and the paging hints of the generated [SearchRequest],
    which is not part of the sources. Attributes that are unset are left out
    of the serialized form. *)
Record PagingRequest : Type := {
  search_text : option string;
  filter : option string;
  skip : option Z;
  top : option Z;
}.

Definition opt_entry (key : string) (v : option pyval) : pydict :=
  match v with
  | Some v => [(key, v)]
  | None => []
  end.

Definition PagingRequest_serialize (r : PagingRequest) : pyval :=
  VDict (opt_entry "search" (VStr <$> search_text r) ++
         opt_entry "filter" (VStr <$> filter r) ++
         opt_entry "skip" (VInt <$> skip r) ++
         opt_entry "top" (VInt <$> top r))%list.

Definition attr_str (v : option pyval) : result (option string) :=
  match v with
  | None | Some VNone => Ok None
  | Some (VStr s) => Ok (Some s)
  | Some _ => Raise DeserializationError
  end.

Definition attr_int (v : option pyval) : result (option Z) :=
  match v with
  | None | Some VNone => Ok None
  | Some (VInt z) => Ok (Some z)
  | Some _ => Raise DeserializationError
  end.

Definition PagingRequest_deserialize (data : pyval) : result PagingRequest :=
  match data with
  | VDict d =>
      search_text ← attr_str (dict_get "search" d);
      filter ← attr_str (dict_get "filter" d);
      skip ← attr_int (dict_get "skip" d);
      top ← attr_int (dict_get "top" d);
      Ok {| search_text := search_text; filter := filter;
            skip := skip; top := top |}
  | _ => Raise DeserializationError
  end.

#[global] Instance PagingRequest_model : ProtocolModel PagingRequest := {|
  serialize := PagingRequest_serialize;
  deserialize := PagingRequest_deserialize;
|}.

(** A response that announces a second page, and the token that CPython
    computes for it. *)
Definition example_link : string :=
  "https://svc.search.windows.net/indexes('hotels')/docs/search.post.search?api-version=2019-05-06-Preview".

Definition example_parameters : PagingRequest :=
  {| search_text := Some "O'Neil"; filter := None;
     skip := Some 50%Z; top := None |}.

Definition example_response : SearchDocumentsResult :=
  {| next_link := example_link;
     next_page_parameters := Some example_parameters;
     results := [example_row] |}.

Definition example_token : pydata :=
  Bytes "eyJhcGlWZXJzaW9uIjogIjIwMTktMDUtMDYtUHJldmlldyIsICJuZXh0TGluayI6ICJodHRwczovL3N2Yy5zZWFyY2gud2luZG93cy5uZXQvaW5kZXhlcygnaG90ZWxzJykvZG9jcy9zZWFyY2gucG9zdC5zZWFyY2g/YXBpLXZlcnNpb249MjAxOS0wNS0wNi1QcmV2aWV3IiwgIm5leHRQYWdlUGFyYW1ldGVycyI6IHsic2VhcmNoIjogIk8nTmVpbCIsICJza2lwIjogNTB9fQ==".



(** ** The client facade *)

(** Modelled from the spec: the batch builder of [_index_documents_batch],
    which is not part of the sources. An accumulator appends one action per
    document, of its kind, in the order of the documents. *)
Inductive action_kind : Type := upload | merge | mergeOrUpload | delete.

Definition add_documents (kind : action_kind) (documents : list pyval)
    (actions : list (action_kind * pyval)) : list (action_kind * pyval) :=
  (actions ++ map (pair kind) documents)%list.

Section Client.

Context {SearchRequest SuggestRequest AutocompleteRequest : Type}.

(** [SearchQuery(search_text=query).request]; the query classes are not part
    of the sources. *)
Variable search_text_request : string -> SearchRequest.

(** What the transport collaborator returns, with the three readings that
    the facade makes of it: [int(...)], [r.as_dict()] over [response.results],
    and [batch_response.results]. *)
Context {reply : Type}.
Variable int_of_reply : reply -> reply.
Variable results_as_dicts : reply -> reply.
Variable batch_results : reply -> reply.

(** Objects that a caller may pass as [query]. *)
Inductive pyobj : Type :=
| OVal (v : pyval)
| OSearchQuery (request : SearchRequest)
| OSuggestQuery (request : SuggestRequest)
| OAutocompleteQuery (request : AutocompleteRequest).

(** Arguments of a call on the generated client. *)
Inductive argval : Type :=
| AVal (v : pyval)
| ASearchRequest (request : SearchRequest)
| ASuggestRequest (request : SuggestRequest)
| AAutocompleteRequest (request : AutocompleteRequest)
| AIndexBatch (actions : list (action_kind * pyval))
| ACallable (name : string).

Record call : Type := {
  call_method : string;
  call_args : list argval;
  call_kwargs : list (string * argval);
}.

Variable transport : call -> result reply.

Record client : Type := {
  _endpoint : string;
  _index_name : string;
  _headers : pydict;
}.

Definition _ODATA_ACCEPT : string := "application/json;odata.metadata=none".

(** Modelled from the spec: [_merge_client_headers] of [HeadersMixin], which
    is not part of the sources. The caller's headers are laid over the
    client-wide default headers, so that a key of the call overrides a
    default; without headers from the caller the defaults are used. *)
Definition _merge_client_headers (self : client) (headers : option argval)
  : result argval :=
  match headers with
  | None | Some (AVal VNone) => Ok (AVal (VDict (_headers self)))
  | Some (AVal (VDict hs)) =>
      Ok (AVal (VDict (fold_left (fun d kv => dict_set (fst kv) (snd kv) d)
                         hs (_headers self))))
  | Some _ => Raise TypeError
  end.

(** Calls are recorded in the order they reach the transport. *)
Definition M (A : Type) : Type := list call -> result A * list call.

Definition lift {A : Type} (r : result A) : M A := fun log => (r, log).

Definition and_then {A B : Type} (m : M A) (k : A -> M B) : M B := fun log =>
  match m log with
  | (Ok a, log) => k a log
  | (Raise e, log) => (Raise e, log)
  | (Unmodelled, log) => (Unmodelled, log)
  end.

(** A call of [method] with positional arguments, keywords written out at
    the call ([named]) and the unpacked [kwargs]: a name given twice is a
    [TypeError] raised before the callee runs. *)
Definition invoke (method : string) (args : list argval)
    (named kwargs : list (string * argval)) : M reply := fun log =>
  if existsb (fun name => bool_decide (is_Some (dict_get name kwargs)))
       (dict_keys named)
  then (Raise TypeError, log)
  else
    let c := {| call_method := method; call_args := args;
                call_kwargs := (named ++ kwargs)%list |} in
    (transport c, (log ++ [c])%list).

(** [kwargs["headers"] = self._merge_client_headers(kwargs.get("headers"))] *)
Definition with_client_headers (self : client) (kwargs : list (string * argval))
  : M (list (string * argval)) :=
  and_then (lift (_merge_client_headers self (dict_get "headers" kwargs)))
    (fun merged => lift (Ok (dict_set "headers" merged kwargs))).

Definition get_document_count (self : client) (kwargs : list (string * argval))
  : M reply :=
  and_then (with_client_headers self kwargs) (fun kwargs =>
  and_then (invoke "documents.count" [] [] kwargs) (fun n =>
  lift (Ok (int_of_reply n)))).

Definition get_document (self : client) (key selected_fields : pyval)
    (kwargs : list (string * argval)) : M reply :=
  and_then (with_client_headers self kwargs) (fun kwargs =>
  invoke "documents.get" []
    [("key", AVal key); ("selected_fields", AVal selected_fields)] kwargs).

Definition search (self : client) (query : pyobj)
    (kwargs : list (string * argval)) : M reply :=
  and_then
    (lift match query with
          | OVal (VStr text) => Ok (search_text_request text)
          | OSearchQuery request => Ok request
          | _ => Raise TypeError
          end) (fun request =>
  and_then (with_client_headers self kwargs) (fun kwargs =>
  invoke "documents.search_post" [ASearchRequest request]
    [("extract_data", ACallable "_extract_data_cb");
     ("unpack_next_link", ACallable "_unpack_next_link");
     ("item_paged", ACallable "SearchItemPaged")] [])).

Definition suggest (self : client) (query : pyobj)
    (kwargs : list (string * argval)) : M reply :=
  and_then
    (lift match query with
          | OSuggestQuery request => Ok request
          | _ => Raise TypeError
          end) (fun request =>
  and_then (with_client_headers self kwargs) (fun kwargs =>
  and_then (invoke "documents.suggest_post" []
              [("suggest_request", ASuggestRequest request)] kwargs)
    (fun response => lift (Ok (results_as_dicts response))))).

Definition autocomplete (self : client) (query : pyobj)
    (kwargs : list (string * argval)) : M reply :=
  and_then
    (lift match query with
          | OAutocompleteQuery request => Ok request
          | _ => Raise TypeError
          end) (fun request =>
  and_then (with_client_headers self kwargs) (fun kwargs =>
  and_then (invoke "documents.autocomplete_post" []
              [("autocomplete_request", AAutocompleteRequest request)] kwargs)
    (fun response => lift (Ok (results_as_dicts response))))).

Definition index_documents (self : client)
    (batch : list (action_kind * pyval)) (kwargs : list (string * argval))
  : M reply :=
  let index_documents := AIndexBatch batch in
  and_then (with_client_headers self kwargs) (fun kwargs =>
  and_then (invoke "documents.index" [] [("batch", index_documents)] kwargs)
    (fun batch_response => lift (Ok (batch_results batch_response)))).

(** The body shared by [upload_documents], [delete_documents],
    [merge_documents] and [merge_or_upload_documents]. *)
Definition submit_documents (kind : action_kind) (self : client)
    (documents : list pyval) (kwargs : list (string * argval)) : M reply :=
  let batch := add_documents kind documents [] in
  and_then (with_client_headers self kwargs) (fun kwargs =>
  index_documents self batch kwargs).

Definition upload_documents := submit_documents upload.
Definition delete_documents := submit_documents delete.
Definition merge_documents := submit_documents merge.
Definition merge_or_upload_documents := submit_documents mergeOrUpload.

(** The call that [search] makes for a request. *)
Definition search_call (request : SearchRequest) : call :=
  {| call_method := "documents.search_post";
     call_args := [ASearchRequest request];
     call_kwargs :=
       [("extract_data", ACallable "_extract_data_cb");
        ("unpack_next_link", ACallable "_unpack_next_link");
        ("item_paged", ACallable "SearchItemPaged")] |}.

(** The headers that a recorded call carries. *)
Definition call_headers (c : call) : option argval :=
  dict_get "headers" (call_kwargs c).

End Client.

Arguments pyobj : clear implicits.
Arguments argval : clear implicits.
Arguments call : clear implicits.

(** A client, a caller's keyword arguments and a transport that answers
    every call, for the examples. *)
Definition example_client : client :=
  {| _endpoint := "https://svc.search.windows.net";
     _index_name := "hotels";
     _headers := [("api-key", VStr "secret"); ("Accept", VStr _ODATA_ACCEPT)] |}.

Definition example_kwargs
  : list (string * argval PagingRequest PagingRequest PagingRequest) :=
  [("headers", AVal (VDict [("x-ms-client-request-id", VStr "abc");
                            ("Accept", VStr "application/json")]))].

Definition text_request (text : string) : PagingRequest :=
  {| search_text := Some text; filter := None; skip := None; top := None |}.

Definition echo_transport
    (c : call PagingRequest PagingRequest PagingRequest) : result unit :=
  Ok tt.

Definition example_search_call : call PagingRequest PagingRequest PagingRequest :=
  search_call (text_request "pool").

(** ** Reading [odata] *)

(** A character other than the two braces of [str.format]. *)
Definition not_brace (c : ascii) : bool :=
  negb (Ascii.eqb c "{") && negb (Ascii.eqb c "}").


(** What the loop of [odata] makes of one keyword argument. *)
Definition odata_entry (statement : string) (kv : string * pyval)
  : string * pyval :=
  match snd kv with
  | VStr value =>
      if contains ("'{" ++ fst kv ++ "}'") statement then kv
      else (fst kv, VStr ("'" ++ escape_quotes value ++ "'"))
  | _ => kv
  end.

(** The number that a string of digits writes. *)
Fixpoint decimal_from (accumulator : Z) (digits : string) : Z :=
  match digits with
  | "" => accumulator
  | String c r => decimal_from (accumulator * 10 + digit_value c) r
  end.

Definition decimal_value (digits : string) : Z := decimal_from 0 digits.

(** ** Pages of rows *)

(** The store after the rows have been adapted one after the other. *)
Definition adapt_rows (rows : list SearchResult) (h : heap) : heap :=
  fold_left (fun h r => (convert_search_result r h).2) rows h.

(** ** Requests *)

(** The outcome of a call read through [f]; an exception passes through. *)
#[global] Instance result_fmap : FMap result := fun _ _ f r =>
  match r with
  | Ok a => Ok (f a)
  | Raise e => Raise e
  | Unmodelled => Unmodelled
  end.

(** The call that [index_documents] makes for a batch. *)
Definition index_call {SearchRequest SuggestRequest AutocompleteRequest : Type}
    (batch : list (action_kind * pyval))
    (kwargs : list (string * argval SearchRequest SuggestRequest
                                AutocompleteRequest))
  : call SearchRequest SuggestRequest AutocompleteRequest :=
  {| call_method := "documents.index";
     call_args := [];
     call_kwargs := ("batch", AIndexBatch batch) :: kwargs |}.

(** ** The text form of the client *)

(** [str.isprintable] of a code point below 256: the control characters,
    the no-break space and the soft hyphen are not printable. *)
Definition is_printable (c : ascii) : bool :=
  let n := nat_of_ascii c in
  Nat.leb 32 n && negb (Nat.eqb n 127)
  && negb (Nat.leb 128 n && Nat.leb n 160) && negb (Nat.eqb n 173).

(** The quote that [repr] puts around a [str]: a double quote when the text
    has a single quote and no double quote, a single quote otherwise. *)
Definition repr_quote (s : string) : ascii :=
  if contains "'" s && negb (contains (String dquote "") s) then dquote
  else "'"%char.

Definition repr_char (quote c : ascii) : string :=
  let n := nat_of_ascii c in
  if Ascii.eqb c quote || Ascii.eqb c backslash
  then String backslash (String c "")
  else if Nat.eqb n 9 then String backslash "t"
  else if Nat.eqb n 10 then String backslash "n"
  else if Nat.eqb n 13 then String backslash "r"
  else if is_printable c then String c ""
  else String backslash
         (String "x" (String (hex_digit (n / 16))
                        (String (hex_digit (n mod 16)) ""))).

Fixpoint repr_chars (quote : ascii) (s : string) : string :=
  match s with
  | "" => ""
  | String c r => repr_char quote c ++ repr_chars quote r
  end.

(** [repr(s)] for a [str]. *)
Definition repr_str (s : string) : string :=
  let quote := repr_quote s in
  String quote (repr_chars quote s ++ String quote "").

(** [s[:n]] *)
Definition slice_to (n : nat) (s : string) : string := substring 0 n s.

(** The template has two fields that take the positional arguments in
    turn. *)
Definition __repr__ (self : client) : string :=
  slice_to 1024
    ("<SearchIndexClient [endpoint=" ++ repr_str (_endpoint self)
     ++ ", index=" ++ repr_str (_index_name self) ++ "]>").

(** A character that [repr] copies as it is inside single quotes. *)
Definition is_plain (c : ascii) : bool :=
  is_printable c && negb (Ascii.eqb c "'") && negb (Ascii.eqb c backslash).

(** ** Further examples *)

(** A second row with a field bag of its own, and a store with both bags. *)
Definition second_row : SearchResult :=
  {| additional_properties := 1; score := VFloat "1.25"; highlights := VNone |}.

Definition two_row_heap : heap :=
  {[ 0 := [("id", VStr "1")]; 1 := [("id", VStr "2")] ]}.

Definition two_row_response : SearchDocumentsResult :=
  {| next_link := example_link;
     next_page_parameters := Some example_parameters;
     results := [example_row; second_row] |}.

(** A row that refers to the field bag of [example_row]. *)
Definition rescored_row : SearchResult :=
  {| additional_properties := 0; score := VFloat "1.25"; highlights := VNone |}.

Definition shared_bag_response : SearchDocumentsResult :=
  {| next_link := example_link;
     next_page_parameters := Some example_parameters;
     results := [example_row; rescored_row] |}.

(** The response of the example without its rows. *)
Definition empty_page_response : SearchDocumentsResult :=
  {| next_link := example_link;
     next_page_parameters := Some example_parameters;
     results := [] |}.

(** The headers of [example_kwargs] merged over those of [example_client]. *)
Definition example_merged : argval PagingRequest PagingRequest PagingRequest :=
  AVal (VDict [("api-key", VStr "secret");
               ("Accept", VStr "application/json");
               ("x-ms-client-request-id", VStr "abc")]).

Definition example_documents : list pyval :=
  [VDict [("id", VStr "1")]; VDict [("id", VStr "2")]].

(** * Theorems *)

#[local] Arguments String.append !_ _ / : simpl nomatch.

(** ** Dictionaries *)

Section DictFacts.

Context {V : Type}.
Implicit Types (k : string) (v : V) (d : list (string * V)).

Lemma dict_get_set_eq k v d : dict_get k (dict_set k v d) = Some v.
Proof.
  induction d as [| [k' v'] d IH]; simpl.
  - now rewrite String.eqb_refl.
  - destruct (String.eqb k' k) eqn:E; simpl; rewrite E; auto.
Qed.

Lemma dict_get_set_ne k k' v d :
  k <> k' -> dict_get k' (dict_set k v d) = dict_get k' d.
Proof.
  intros Hne. induction d as [| [k0 v0] d IH]; simpl.
  - destruct (String.eqb_spec k k'); congruence.
  - destruct (String.eqb_spec k0 k) as [-> | Hk]; simpl.
    + destruct (String.eqb_spec k k'); congruence.
    + destruct (String.eqb_spec k0 k'); auto.
Qed.

Lemma dict_get_set k k' v d :
  dict_get k' (dict_set k v d) =
  if String.eqb k k' then Some v else dict_get k' d.
Proof.
  destruct (String.eqb_spec k k') as [-> | Hne].
  - apply dict_get_set_eq.
  - now apply dict_get_set_ne.
Qed.

Lemma dict_get_None_notin k d : dict_get k d = None <-> ~ In k (dict_keys d).
Proof.
  induction d as [| [k' v'] d IH]; simpl.
  - tauto.
  - destruct (String.eqb_spec k' k) as [-> | Hne].
    + split; [discriminate | tauto].
    + rewrite IH. tauto.
Qed.

Lemma dict_set_fresh k v d :
  dict_get k d = None -> dict_set k v d = (d ++ [(k, v)])%list.
Proof.
  induction d as [| [k' v'] d IH]; simpl; auto.
  destruct (String.eqb k' k); [discriminate |].
  intros H. now rewrite IH.
Qed.

Lemma dict_keys_set k v d :
  dict_keys (dict_set k v d) =
  match dict_get k d with
  | Some _ => dict_keys d
  | None => (dict_keys d ++ [k])%list
  end.
Proof.
  induction d as [| [k' v'] d IH]; simpl; auto.
  destruct (String.eqb k' k) eqn:E; simpl; auto.
  rewrite IH. now destruct (dict_get k d).
Qed.

End DictFacts.

(** ** The result-row adapter *)

Section RowAdapter.

Variable result : SearchResult.
Variable h : heap.
Variable bag : pydict.
Hypothesis Hbag : h !! additional_properties result = Some bag.

Lemma convert_search_result_ret :
  (convert_search_result result h).1 = additional_properties result.
Proof. reflexivity. Qed.

Lemma convert_search_result_heap :
  (convert_search_result result h).2 !! additional_properties result
  = Some (adapted_bag result bag).
Proof using Hbag.
  unfold convert_search_result, setitem; simpl.
  rewrite !lookup_alter_eq, Hbag. reflexivity.
Qed.

Lemma convert_search_result_frame l :
  l <> additional_properties result ->
  (convert_search_result result h).2 !! l = h !! l.
Proof.
  intros Hl. unfold convert_search_result, setitem; simpl.
  rewrite !lookup_alter_ne; auto.
Qed.

Lemma adapted_bag_get k :
  dict_get k (adapted_bag result bag) =
  if String.eqb search_highlights k then Some (highlights result)
  else if String.eqb search_score k then Some (score result)
  else dict_get k bag.
Proof. unfold adapted_bag. now rewrite !dict_get_set. Qed.

End RowAdapter.

(** C6. The mapping returned by [convert_search_result] is the row's field
    bag with the two reserved keys stored in it: ["@search.score"] holds the
    row's score, ["@search.highlights"] its highlight map, every other key
    keeps the value the bag had, and when the bag did not use the reserved
    names the two entries are appended to it. The row of the specification
    (score 3.5, highlights [{"title": ["foo"]}], bag [{"id": "1"}]) adapts to
    [{"id": "1", "@search.score": 3.5, "@search.highlights": {"title": ["foo"]}}]. *)
Theorem convert_search_result_adds_reserved_keys :
  (forall (result : SearchResult) (h : heap) (bag : pydict),
      h !! additional_properties result = Some bag ->
      exists out,
        (convert_search_result result h).2 !! (convert_search_result result h).1
        = Some out /\
        dict_get search_score out = Some (score result) /\
        dict_get search_highlights out = Some (highlights result) /\
        (forall k, k <> search_score -> k <> search_highlights ->
                   dict_get k out = dict_get k bag) /\
        (dict_get search_score bag = None ->
         dict_get search_highlights bag = None ->
         out = (bag ++ [(search_score, score result);
                        (search_highlights, highlights result)])%list)) /\
  (convert_search_result example_row example_heap).2
    !! (convert_search_result example_row example_heap).1
  = Some [("id", VStr "1");
          ("@search.score", VFloat "3.5");
          ("@search.highlights", VDict [("title", VList [VStr "foo"])])].
Proof.
  split; [| reflexivity].
  intros result h bag Hbag. exists (adapted_bag result bag).
  rewrite convert_search_result_ret, (convert_search_result_heap _ _ _ Hbag).
  repeat split.
  - rewrite adapted_bag_get. simpl. reflexivity.
  - rewrite adapted_bag_get. simpl. reflexivity.
  - intros k Hs Hh. rewrite adapted_bag_get.
    destruct (String.eqb_spec search_highlights k); [congruence |].
    destruct (String.eqb_spec search_score k); [congruence | reflexivity].
  - intros Hs Hh. unfold adapted_bag.
    rewrite (dict_set_fresh search_score _ bag Hs).
    rewrite dict_set_fresh.
    + now rewrite <- app_assoc.
    + rewrite <- (dict_set_fresh search_score (score result) bag Hs).
      rewrite dict_get_set_ne; [assumption | discriminate].
Qed.

Lemma convert_search_result_adds_reserved_keys_witness :
  exists out,
    (convert_search_result example_row example_heap).2
      !! (convert_search_result example_row example_heap).1 = Some out /\
    dict_get search_score out = Some (VFloat "3.5") /\
    dict_get search_highlights out
    = Some (VDict [("title", VList [VStr "foo"])]) /\
    (forall k, k <> search_score -> k <> search_highlights ->
               dict_get k out = dict_get k [("id", VStr "1")]) /\
    (dict_get search_score [("id", VStr "1")] = None ->
     dict_get search_highlights [("id", VStr "1")] = None ->
     out = [("id", VStr "1"); (search_score, VFloat "3.5");
            (search_highlights, VDict [("title", VList [VStr "foo"])])]).
Proof.
  apply (proj1 convert_search_result_adds_reserved_keys
           example_row example_heap [("id", VStr "1")]).
  reflexivity.
Defined.

(** C10. Both reserved keys are always present in the mapping returned by
    [convert_search_result]; a row without highlights (or without a score)
    gets the key mapped to [None], it is not left out. *)
Theorem convert_search_result_reserved_keys_present
    (result : SearchResult) (h : heap) (bag : pydict) :
  h !! additional_properties result = Some bag ->
  exists out,
    (convert_search_result result h).2 !! (convert_search_result result h).1
    = Some out /\
    In search_score (dict_keys out) /\
    In search_highlights (dict_keys out) /\
    dict_get search_score out = Some (score result) /\
    dict_get search_highlights out = Some (highlights result) /\
    (highlights result = VNone -> dict_get search_highlights out = Some VNone) /\
    (score result = VNone -> dict_get search_score out = Some VNone).
Proof.
  intros Hbag. exists (adapted_bag result bag).
  rewrite convert_search_result_ret, (convert_search_result_heap _ _ _ Hbag).
  assert (Hs : dict_get search_score (adapted_bag result bag) = Some (score result))
    by (rewrite adapted_bag_get; reflexivity).
  assert (Hh : dict_get search_highlights (adapted_bag result bag)
               = Some (highlights result))
    by (rewrite adapted_bag_get; reflexivity).
  repeat split; auto.
  - destruct (in_dec string_dec search_score (dict_keys (adapted_bag result bag)))
      as [Hin | Hout]; [assumption |].
    apply dict_get_None_notin in Hout. congruence.
  - destruct (in_dec string_dec search_highlights
                (dict_keys (adapted_bag result bag))) as [Hin | Hout];
      [assumption |].
    apply dict_get_None_notin in Hout. congruence.
  - intros <-. assumption.
  - intros <-. assumption.
Qed.

Lemma convert_search_result_reserved_keys_present_witness :
  exists out,
    (convert_search_result plain_row example_heap).2
      !! (convert_search_result plain_row example_heap).1 = Some out /\
    In search_score (dict_keys out) /\
    In search_highlights (dict_keys out) /\
    dict_get search_score out = Some (VFloat "3.5") /\
    dict_get search_highlights out = Some VNone /\
    (VNone = VNone -> dict_get search_highlights out = Some VNone) /\
    (VFloat "3.5" = VNone -> dict_get search_score out = Some VNone).
Proof.
  apply (convert_search_result_reserved_keys_present
           plain_row example_heap [("id", VStr "1")]).
  reflexivity.
Defined.

(** C5, as the code has it. [convert_search_result] makes no copy: it stores
    the two reserved keys in the row's own field bag and returns that very
    object. The other keys of the bag, every other object of the store and
    the row's score and highlights are left as they were, and a later write
    through the returned mapping is a write to the row's field bag. *)
Theorem convert_search_result_updates_in_place
    (result : SearchResult) (h : heap) (bag : pydict) :
  h !! additional_properties result = Some bag ->
  let ret := (convert_search_result result h).1 in
  let h' := (convert_search_result result h).2 in
  ret = additional_properties result /\
  h' !! additional_properties result = Some (adapted_bag result bag) /\
  (forall k, k <> search_score -> k <> search_highlights ->
             dict_get k (adapted_bag result bag) = dict_get k bag) /\
  (forall l, l <> additional_properties result -> h' !! l = h !! l) /\
  (forall k v,
      setitem ret k v h' !! additional_properties result
      = Some (dict_set k v (adapted_bag result bag))).
Proof.
  intros Hbag ret h'. subst ret h'.
  rewrite convert_search_result_ret.
  pose proof (convert_search_result_heap _ _ _ Hbag) as Hheap.
  repeat split.
  - assumption.
  - intros k Hs Hh. rewrite adapted_bag_get.
    destruct (String.eqb_spec search_highlights k); [congruence |].
    destruct (String.eqb_spec search_score k); [congruence | reflexivity].
  - intros l Hl. now apply convert_search_result_frame.
  - intros k v. unfold setitem at 1. rewrite lookup_alter_eq, Hheap. reflexivity.
Qed.

Lemma convert_search_result_updates_in_place_witness :
  let ret := (convert_search_result example_row example_heap).1 in
  let h' := (convert_search_result example_row example_heap).2 in
  ret = 0 /\
  h' !! 0 = Some (adapted_bag example_row [("id", VStr "1")]) /\
  (forall k, k <> search_score -> k <> search_highlights ->
             dict_get k (adapted_bag example_row [("id", VStr "1")])
             = dict_get k [("id", VStr "1")]) /\
  (forall l, l <> 0 -> h' !! l = example_heap !! l) /\
  (forall k v,
      setitem ret k v h' !! 0
      = Some (dict_set k v (adapted_bag example_row [("id", VStr "1")]))).
Proof.
  apply (convert_search_result_updates_in_place
           example_row example_heap [("id", VStr "1")]).
  reflexivity.
Defined.

(** C5 as stated fails: on the example row the call returns the location of
    the row's own field bag, and the bag read through the row afterwards
    differs from the bag before the call. *)
Lemma convert_search_result_mutates_row :
  (convert_search_result example_row example_heap).1
  = additional_properties example_row /\
  example_heap !! additional_properties example_row
  = Some [("id", VStr "1")] /\
  (convert_search_result example_row example_heap).2
    !! additional_properties example_row
  <> example_heap !! additional_properties example_row.
Proof.
  split; [reflexivity |]. split; [reflexivity |].
  vm_compute. discriminate.
Qed.

(** ** The OData escaping helper *)

Lemma odata_step_prequoted statement kw key :
  contains ("'{" ++ key ++ "}'") statement = true ->
  odata_step statement kw key = kw.
Proof.
  intros H. unfold odata_step. rewrite H.
  destruct (dict_get key kw) as [[] |]; reflexivity.
Qed.

(** When every placeholder is already quoted in the template, [odata] is
    plain formatting: the values are substituted as they are. *)
Lemma odata_prequoted statement kwargs :
  (forall key, In key (dict_keys kwargs) ->
               contains ("'{" ++ key ++ "}'") statement = true) ->
  odata statement kwargs = str_format statement kwargs.
Proof.
  intros H. unfold odata.
  assert (Hfold : forall keys kw,
             (forall key, In key keys ->
                          contains ("'{" ++ key ++ "}'") statement = true) ->
             fold_left (odata_step statement) keys kw = kw).
  { induction keys as [| key keys IH]; intros kw Hk; [reflexivity |].
    simpl. rewrite odata_step_prequoted by (apply Hk; now left).
    apply IH. intros k Hin. apply Hk. now right. }
  now rewrite Hfold.
Qed.

(** C9, as the code has it. The example of the docstring holds, and a value
    substituted for an unquoted placeholder has its single quotes doubled
    and is wrapped in quotes. For placeholders that the template already
    quotes [odata] is plain formatting, the values are substituted as they
    are: the quote of [O'Neil] is not doubled. *)
Theorem odata_prequoted_value_not_escaped :
  (forall (statement : string) (kwargs : pydict),
      (forall key, In key (dict_keys kwargs) ->
                   contains ("'{" ++ key ++ "}'") statement = true) ->
      odata statement kwargs = str_format statement kwargs) /\
  odata "name eq '{name}'" [("name", VStr "O'Neil")]
  = Ok "name eq 'O'Neil'" /\
  odata "name eq {name}" [("name", VStr "O'Neil")]
  = Ok "name eq 'O''Neil'" /\
  odata "name eq {name} and age eq {age}"
    [("name", VStr "O'Neil"); ("age", VInt 37)]
  = Ok "name eq 'O''Neil' and age eq 37".
Proof.
  split; [exact odata_prequoted |].
  repeat split; vm_compute; reflexivity.
Qed.

Lemma odata_prequoted_value_not_escaped_witness :
  odata "name eq '{name}'" [("name", VStr "O'Neil")]
  = str_format "name eq '{name}'" [("name", VStr "O'Neil")].
Proof.
  apply (proj1 odata_prequoted_value_not_escaped).
  intros key [<- | []]. vm_compute. reflexivity.
Defined.

(** ** Base64 *)

Lemma a2b_b2a v : is_sextet v -> a2b (b2a v) = Some v.
Proof.
  intros (b0 & b1 & b2 & b3 & b4 & b5 & ->).
  destruct b0, b1, b2, b3, b4, b5; reflexivity.
Qed.

Lemma b2a_not_pad v : is_sextet v -> Ascii.eqb (b2a v) BASE64_PAD = false.
Proof.
  intros (b0 & b1 & b2 & b3 & b4 & b5 & ->).
  destruct b0, b1, b2, b3, b4, b5; reflexivity.
Qed.

Lemma is_sextet1 a : is_sextet (sextet1 a).
Proof. destruct a; unfold is_sextet; simpl; eauto 7. Qed.

Lemma is_sextet2 a b : is_sextet (sextet2 a b).
Proof. destruct a, b; unfold is_sextet; simpl; eauto 7. Qed.

Lemma is_sextet3 a b : is_sextet (sextet3 a b).
Proof. destruct a, b; unfold is_sextet; simpl; eauto 7. Qed.

Lemma is_sextet4 a : is_sextet (sextet4 a).
Proof. destruct a; unfold is_sextet; simpl; eauto 7. Qed.

Create HintDb b64.
#[local] Hint Resolve is_sextet1 is_sextet2 is_sextet3 is_sextet4 : b64.

(** One step of the decoder on a character of the alphabet. *)
Lemma a2b_base64_data v r q pads :
  is_sextet v ->
  a2b_base64 (String (b2a v) r) q pads =
  match q with
  | Q0 => a2b_base64 r (Q1 v) 0
  | Q1 l => out ← a2b_base64 r (Q2 (low4 v)) 0; Ok (String (byte1 l v) out)
  | Q2 l => out ← a2b_base64 r (Q3 (low2 v)) 0; Ok (String (byte2 l v) out)
  | Q3 l => out ← a2b_base64 r Q0 0; Ok (String (byte3 l v) out)
  end.
Proof.
  intros Hv. cbn [a2b_base64].
  rewrite (b2a_not_pad v Hv), (a2b_b2a v Hv). reflexivity.
Qed.

Lemma regroup1 a b : byte1 (sextet1 a) (sextet2 a b) = a.
Proof. destruct a, b; reflexivity. Qed.

Lemma regroup2 a b c : byte2 (low4 (sextet2 a b)) (sextet3 b c) = b.
Proof. destruct a, b, c; reflexivity. Qed.

Lemma regroup3 b c : byte3 (low2 (sextet3 b c)) (sextet4 c) = c.
Proof. destruct b, c; reflexivity. Qed.

Lemma a2b_base64_b64encode n s :
  String.length s <= n -> a2b_base64 (b64encode s) Q0 0 = Ok s.
Proof.
  revert s. induction n as [| n IH]; intros s Hn.
  - destruct s; [reflexivity | simpl in Hn; lia].
  - destruct s as [| a [| b [| c r]]]; cbn [b64encode].
    + reflexivity.
    + rewrite !a2b_base64_data by auto with b64.
      cbn. rewrite regroup1. reflexivity.
    + rewrite !a2b_base64_data by auto with b64.
      cbn. rewrite regroup1, regroup2. reflexivity.
    + rewrite !a2b_base64_data by auto with b64.
      rewrite IH by (simpl in Hn; lia).
      cbn. rewrite regroup1, regroup2, regroup3. reflexivity.
Qed.

(** [base64.b64decode(base64.b64encode(s))] is [s]. *)
Theorem b64decode_b64encode s : b64decode (Bytes (b64encode s)) = Ok s.
Proof. apply (a2b_base64_b64encode (String.length s)). lia. Qed.

Lemma is_b64_char_b2a v : is_sextet v -> is_b64_char (b2a v) = true.
Proof. intros Hv. unfold is_b64_char. now rewrite (a2b_b2a v Hv). Qed.

Lemma b64encode_alphabet_le n s :
  String.length s <= n -> all_chars is_b64_char (b64encode s) = true.
Proof.
  revert s. induction n as [| n IH]; intros s Hn.
  - destruct s; [reflexivity | simpl in Hn; lia].
  - destruct s as [| a [| b [| c r]]]; cbn [b64encode all_chars];
      rewrite ?is_b64_char_b2a by auto with b64; try reflexivity.
    rewrite IH by (simpl in Hn; lia). reflexivity.
Qed.

Lemma b64encode_alphabet s : all_chars is_b64_char (b64encode s) = true.
Proof. apply (b64encode_alphabet_le (String.length s)). lia. Qed.






Lemma a2b_base64_modelled s : forall q pads, a2b_base64 s q pads <> Unmodelled.
Proof.
  induction s as [| c s IH]; intros q pads.
  - destruct q; simpl; congruence.
  - cbn [a2b_base64].
    destruct (Ascii.eqb c BASE64_PAD).
    + destruct (Nat.leb 2 (quad_pos q)); [| apply IH].
      destruct (Nat.leb 4 (quad_pos q + S pads)); [discriminate | apply IH].
    + destruct (a2b c); [| apply IH].
      destruct q; [apply IH | | |];
        (destruct (a2b_base64 s _ 0) eqn:E; cbn [mbind result_bind];
         [discriminate | discriminate | now apply IH in E]).
Qed.

Lemma append_assoc (a b c : string) : (a ++ b) ++ c = a ++ (b ++ c).
Proof. induction a as [| x a IH]; simpl; [reflexivity | now rewrite IH]. Qed.

Lemma append_nil_r (a : string) : a ++ "" = a.
Proof. induction a as [| x a IH]; simpl; [reflexivity | now rewrite IH]. Qed.

(** ** UTF-8 *)

Lemma decode_utf8_encode_utf8 s : decode_utf8 (encode_utf8 s) = Ok s.
Proof.
  induction s as [| c s IH]; [reflexivity |].
  destruct c as [b0 b1 b2 b3 b4 b5 b6 [|]].
  - destruct b0, b1, b2, b3, b4, b5, b6; cbn [encode_utf8 decode_utf8];
      rewrite IH; reflexivity.
  - destruct b0, b1, b2, b3, b4, b5, b6; cbn [encode_utf8 decode_utf8];
      rewrite IH; reflexivity.
Qed.

(** ** JSON strings *)

Lemma scanstring_escape_char c tail :
  scanstring (escape_char c ++ tail) =
  '(out, rest) ← scanstring tail; Ok (String c out, rest).
Proof.
  destruct c as [b0 b1 b2 b3 b4 b5 b6 b7].
  destruct b0, b1, b2, b3, b4, b5, b6, b7; reflexivity.
Qed.

Lemma scanstring_escape_chars s rest :
  scanstring (escape_chars s ++ String dquote rest) = Ok (s, rest).
Proof.
  induction s as [| c s IH]; [reflexivity |].
  cbn [escape_chars]. rewrite append_assoc, scanstring_escape_char, IH.
  reflexivity.
Qed.

Lemma scanstring_encode_basestring_ascii s rest :
  exists body,
    encode_basestring_ascii s ++ rest = String dquote body /\
    scanstring body = Ok (s, rest).
Proof.
  exists (escape_chars s ++ String dquote rest). split.
  - unfold encode_basestring_ascii. simpl. now rewrite append_assoc.
  - apply scanstring_escape_chars.
Qed.

(** ** JSON numbers *)

Lemma terminated_head rest :
  terminated rest = true ->
  rest = "" \/ exists c r, rest = String c r /\ (c = "," \/ c = "]" \/ c = "}")%char.
Proof.
  destruct rest as [| c r]; [now left | right].
  exists c, r. split; [reflexivity |].
  simpl in H. rewrite !orb_true_iff in H.
  destruct H as [H | [H | [H | H]]]; try discriminate;
    apply Ascii.eqb_eq in H; auto.
Qed.

Ltac by_head rest H :=
  destruct (terminated_head rest H) as [-> | (? & ? & -> & [-> | [-> | ->]])].

Lemma span_digits_app s rest :
  terminated rest = true ->
  span_digits (s ++ rest) = ((span_digits s).1, (span_digits s).2 ++ rest).
Proof.
  intros Hr. induction s as [| c s IH]; simpl.
  - by_head rest Hr; reflexivity.
  - rewrite IH. destruct (is_digit c); [| reflexivity].
    destruct (span_digits s); reflexivity.
Qed.

Lemma scan_digits1_app s rest :
  terminated rest = true ->
  scan_digits1 (s ++ rest) = extend rest <$> scan_digits1 s.
Proof.
  intros Hr. destruct s as [| c s]; simpl.
  - by_head rest Hr; reflexivity.
  - destruct (Ascii.eqb c "0"); [reflexivity |].
    destruct (is_digit c) eqn:Hc; [| reflexivity].
    pose proof (span_digits_app (String c s) rest Hr) as H.
    simpl in H. rewrite Hc in H. simpl. rewrite H. reflexivity.
Qed.

Lemma scan_integer_app s rest :
  terminated rest = true ->
  scan_integer (s ++ rest) = extend rest <$> scan_integer s.
Proof.
  intros Hr. destruct s as [| c s].
  - simpl. by_head rest Hr; reflexivity.
  - change (String c s ++ rest) with (String c (s ++ rest)).
    unfold scan_integer. destruct (Ascii.eqb c "-").
    + rewrite (scan_digits1_app s rest Hr).
      destruct (scan_digits1 s) as [[ds r] |]; reflexivity.
    + apply (scan_digits1_app (String c s) rest Hr).
Qed.

Lemma scan_frac_app s rest :
  terminated rest = true -> scan_frac (s ++ rest) = extend rest (scan_frac s).
Proof.
  intros Hr. destruct s as [| c s].
  - simpl. by_head rest Hr; reflexivity.
  - change (String c s ++ rest) with (String c (s ++ rest)).
    unfold scan_frac. destruct (Ascii.eqb c "."); [| reflexivity].
    rewrite (span_digits_app s rest Hr).
    destruct (span_digits s) as [[| d ds] r]; reflexivity.
Qed.

Lemma scan_sign_app s rest :
  terminated rest = true -> scan_sign (s ++ rest) = extend rest (scan_sign s).
Proof.
  intros Hr. destruct s as [| c s].
  - simpl. by_head rest Hr; reflexivity.
  - change (String c s ++ rest) with (String c (s ++ rest)).
    unfold scan_sign. destruct (Ascii.eqb c "+" || Ascii.eqb c "-"); reflexivity.
Qed.

Lemma scan_exp_app s rest :
  terminated rest = true -> scan_exp (s ++ rest) = extend rest (scan_exp s).
Proof.
  intros Hr. destruct s as [| c s].
  - simpl. by_head rest Hr; reflexivity.
  - change (String c s ++ rest) with (String c (s ++ rest)).
    unfold scan_exp. destruct (Ascii.eqb c "e" || Ascii.eqb c "E"); [| reflexivity].
    rewrite (scan_sign_app s rest Hr).
    destruct (scan_sign s) as [sign r1]. unfold extend at 1. cbn [fst snd].
    rewrite (span_digits_app r1 rest Hr).
    destruct (span_digits r1) as [[| d ds] r]; reflexivity.
Qed.

Lemma match_number_app s rest :
  terminated rest = true ->
  match_number (s ++ rest) = extend rest <$> match_number s.
Proof.
  intros Hr. unfold match_number.
  rewrite (scan_integer_app s rest Hr).
  destruct (scan_integer s) as [[integer r] |]; [| reflexivity].
  cbn [fmap option_fmap option_map extend fst snd].
  rewrite (scan_frac_app r rest Hr).
  destruct (scan_frac r) as [frac r1]. cbn [extend fst snd].
  rewrite (scan_exp_app r1 rest Hr).
  destruct (scan_exp r1) as [exp r2]. cbn [extend fst snd].
  destruct (frac ++ exp); reflexivity.
Qed.

(** The text of an integer. *)

Lemma span_digits_uint u :
  span_digits (NilEmpty.string_of_uint u) = (NilEmpty.string_of_uint u, "").
Proof.
  induction u; simpl; rewrite ?IHu; reflexivity.
Qed.

Lemma unorm_head u :
  u <> Decimal.Nil -> Decimal.unorm u = u -> u <> Decimal.zero ->
  scan_digits1 (NilEmpty.string_of_uint u) = Some (NilEmpty.string_of_uint u, "").
Proof.
  intros Hnil Hnorm Hzero.
  destruct u; try congruence;
    try (unfold scan_digits1; cbn [NilEmpty.string_of_uint];
         cbn [Ascii.eqb Bool.eqb is_digit];
         match goal with
         | |- context [span_digits (String ?c ?s)] =>
             change (span_digits (String c s))
               with (let '(ds, rest) := span_digits s in (String c ds, rest))
         end; rewrite span_digits_uint; reflexivity).
  exfalso. rewrite unorm_D0 in Hnorm.
  destruct (Decimal.uint_eq_dec u Decimal.Nil) as [-> | Hu]; [now apply Hzero |].
  pose proof (nb_digits_unorm u Hu) as Hlen.
  rewrite Hnorm in Hlen. simpl in Hlen. lia.
Qed.

Lemma to_uint_unorm p : Decimal.unorm (Pos.to_uint p) = Pos.to_uint p.
Proof.
  rewrite <- (DecimalPos.Unsigned.to_of (Pos.to_uint p)).
  now rewrite DecimalPos.Unsigned.of_to.
Qed.

Lemma scan_digits1_pos p :
  scan_digits1 (NilEmpty.string_of_uint (Pos.to_uint p))
  = Some (NilEmpty.string_of_uint (Pos.to_uint p), "").
Proof.
  apply unorm_head.
  - apply DecimalPos.Unsigned.to_uint_nonnil.
  - apply to_uint_unorm.
  - apply DecimalPos.Unsigned.to_uint_nonzero.
Qed.

Lemma string_of_uint_pos p :
  NilZero.string_of_uint (Pos.to_uint p) = NilEmpty.string_of_uint (Pos.to_uint p).
Proof.
  pose proof (DecimalPos.Unsigned.to_uint_nonnil p).
  destruct (Pos.to_uint p); [congruence | reflexivity ..].
Qed.

Lemma int_of_text_repr_int z : int_of_text (repr_int z) = z.
Proof.
  unfold int_of_text, repr_int.
  rewrite NilZero.isi.
  - apply DecimalZ.of_to.
  - destruct z; simpl; try discriminate.
    intros [= H]. now apply (DecimalPos.Unsigned.to_uint_nonnil p).
  - destruct z; simpl; try discriminate.
    intros [= H]. now apply (DecimalPos.Unsigned.to_uint_nonnil p).
Qed.

Lemma digit_not_minus u c r :
  NilEmpty.string_of_uint u = String c r -> Ascii.eqb c "-" = false.
Proof. destruct u; simpl; intros [= <- _]; reflexivity. Qed.

Lemma scan_integer_repr_int z : scan_integer (repr_int z) = Some (repr_int z, "").
Proof.
  unfold repr_int. destruct z as [| p | p]; cbn [Z.to_int NilZero.string_of_int].
  - reflexivity.
  - rewrite string_of_uint_pos.
    pose proof (scan_digits1_pos p) as H.
    destruct (NilEmpty.string_of_uint (Pos.to_uint p)) as [| c r] eqn:E;
      [discriminate |].
    unfold scan_integer. rewrite (digit_not_minus _ _ _ E). exact H.
  - rewrite string_of_uint_pos. unfold scan_integer.
    cbn [Ascii.eqb Bool.eqb]. rewrite scan_digits1_pos. reflexivity.
Qed.

Lemma match_number_repr_int z : match_number (repr_int z) = Some (VInt z, "").
Proof.
  unfold match_number. rewrite scan_integer_repr_int. simpl.
  now rewrite int_of_text_repr_int.
Qed.

Lemma json_dumps_list x xs :
  json_dumps (VList (x :: xs)) = "[" ++ json_dumps x ++ dump_items xs.
Proof. reflexivity. Qed.

Lemma json_dumps_dict k x ms :
  json_dumps (VDict ((k, x) :: ms))
  = "{" ++ encode_basestring_ascii k ++ ": " ++ json_dumps x ++ dump_members ms.
Proof. reflexivity. Qed.

Lemma number_head t v r :
  match_number t = Some (v, r) ->
  exists c s, t = String c s /\ number_start c = true.
Proof.
  unfold match_number, scan_integer, number_start.
  destruct t as [| c s]; [discriminate |].
  intros H. exists c, s. split; [reflexivity |].
  destruct (Ascii.eqb c "-"); [reflexivity |]. simpl.
  unfold scan_digits1 in H.
  destruct (Ascii.eqb_spec c "0") as [-> | _]; [reflexivity |].
  destruct (is_digit c); [reflexivity | discriminate].
Qed.

Lemma number_start_facts c :
  number_start c = true ->
  Ascii.eqb c dquote = false /\ Ascii.eqb c "{" = false /\
  Ascii.eqb c "[" = false /\ Ascii.eqb c "]" = false /\ is_ws c = false /\
  Ascii.eqb "n" c = false /\ Ascii.eqb "t" c = false /\ Ascii.eqb "f" c = false.
Proof.
  destruct c as [b0 b1 b2 b3 b4 b5 b6 b7].
  destruct b0, b1, b2, b3, b4, b5, b6, b7; intros H;
    try discriminate H; repeat split; reflexivity.
Qed.

(** A number read on its own is read the same in front of a delimiter. *)
Lemma scan_once_number t v fuel rest :
  match_number t = Some (v, "") ->
  terminated rest = true ->
  scan_once (S fuel) (t ++ rest) = Ok (v, rest).
Proof.
  intros Ht Hr.
  pose proof (match_number_app t rest Hr) as Happ. rewrite Ht in Happ.
  destruct (number_head _ _ _ Ht) as (c & s & -> & Hc).
  destruct (number_start_facts c Hc) as (H1 & H2 & H3 & _ & _ & H4 & H5 & H6).
  change (String c s ++ rest) with (String c (s ++ rest)) in *.
  cbn [scan_once]. rewrite H1, H2, H3.
  unfold scan_constant. cbn [strip_prefix]. rewrite H4, H5, H6, Happ.
  reflexivity.
Qed.

Lemma floatstr_literal repr :
  is_float_repr repr = true ->
  (repr = "nan" \/ repr = "inf" \/ repr = "-inf") \/
  (floatstr repr = repr /\ match_number repr = Some (VFloat repr, "")).
Proof.
  unfold is_float_repr, floatstr.
  destruct (String.eqb_spec repr "nan"); [auto |].
  destruct (String.eqb_spec repr "inf"); [auto |].
  destruct (String.eqb_spec repr "-inf"); [auto |].
  simpl. intros H. right. split; [reflexivity |].
  destruct (match_number repr) as [[[] [|]] |]; try discriminate.
  apply String.eqb_eq in H. now subst.
Qed.

Lemma scan_once_float repr fuel rest :
  is_float_repr repr = true ->
  terminated rest = true ->
  scan_once (S fuel) (floatstr repr ++ rest) = Ok (VFloat repr, rest).
Proof.
  intros Hf Hr.
  destruct (floatstr_literal repr Hf) as [[-> | [-> | ->]] | [-> Hm]];
    try reflexivity.
  now apply scan_once_number.
Qed.

Lemma number_start_value c : number_start c = true -> value_start c = true.
Proof.
  intros H. destruct (number_start_facts c H) as (_ & _ & _ & H1 & H2 & _).
  unfold value_start. now rewrite H1, H2.
Qed.

Lemma json_dumps_head v :
  json_ok v = true ->
  exists c r, json_dumps v = String c r /\ value_start c = true.
Proof.
  destruct v as [| [|] | z | repr | s | [| x xs] | [| [k x] ms]]; intros Hv;
    try (eexists _, _; split; [reflexivity | reflexivity]).
  - destruct (number_head _ _ _ (match_number_repr_int z)) as (c & r & E & Hc).
    exists c, r. split; [exact E | now apply number_start_value].
  - simpl in Hv.
    destruct (floatstr_literal repr Hv) as [[-> | [-> | ->]] | [E Hm]];
      try (eexists _, _; split; [reflexivity | reflexivity]).
    destruct (number_head _ _ _ Hm) as (c & r & E' & Hc).
    exists c, r. cbn [json_dumps]. rewrite E. split; [exact E' |].
    now apply number_start_value.
Qed.

Lemma skip_ws_value c r : value_start c = true -> skip_ws (String c r) = String c r.
Proof.
  unfold value_start. intros H. apply andb_prop in H as [H _].
  simpl. now destruct (is_ws c).
Qed.

Lemma skip_ws_json_dumps v rest :
  json_ok v = true -> skip_ws (json_dumps v ++ rest) = json_dumps v ++ rest.
Proof.
  intros Hv. destruct (json_dumps_head v Hv) as (c & r & -> & Hc).
  now apply skip_ws_value.
Qed.

(** ** Objects without repeated keys *)

Lemma distinct_cons k keys :
  distinct (k :: keys) = true ->
  ~ In k keys /\ distinct keys = true.
Proof.
  simpl. intros H. apply andb_prop in H as [H1 H2]. split; [| exact H2].
  intros Hin. apply negb_true_iff in H1.
  assert (existsb (String.eqb k) keys = true); [| congruence].
  apply existsb_exists. exists k. split; [exact Hin | apply String.eqb_refl].
Qed.

Lemma dict_of_pairs_app {V : Type} (d1 d2 : list (string * V)) :
  distinct (dict_keys (d1 ++ d2)%list) = true ->
  fold_left (fun d kv => dict_set (fst kv) (snd kv) d) d2 d1 = (d1 ++ d2)%list.
Proof.
  revert d1. induction d2 as [| [k v] d2 IH]; intros d1 Hd; simpl.
  - now rewrite app_nil_r.
  - assert (Hk : dict_get k d1 = None).
    { apply dict_get_None_notin. intros Hin.
      unfold dict_keys in Hd. rewrite map_app in Hd. simpl in Hd.
      clear IH. induction d1 as [| [k1 v1] d1 IH1]; [destruct Hin |].
      simpl in Hd, Hin. apply andb_prop in Hd as [Hd1 Hd2].
      destruct Hin as [-> | Hin]; [| now apply IH1].
      apply negb_true_iff in Hd1.
      assert (existsb (String.eqb k) (map fst d1 ++ k :: map fst d2)%list = true);
        [| congruence].
      apply existsb_exists. exists k. split; [| apply String.eqb_refl].
      apply in_or_app. right. now left. }
    rewrite (dict_set_fresh _ _ _ Hk), IH.
    + now rewrite <- app_assoc.
    + now rewrite <- app_assoc.
Qed.

Lemma dict_of_pairs_distinct {V : Type} (d : list (string * V)) :
  distinct (dict_keys d) = true -> dict_of_pairs d = d.
Proof. intros Hd. unfold dict_of_pairs. now rewrite dict_of_pairs_app. Qed.

(** ** Arrays and objects *)

Lemma append_cons c (a b : string) : String c a ++ b = String c (a ++ b).
Proof. reflexivity. Qed.

Lemma append_nil_l (b : string) : "" ++ b = b.
Proof. reflexivity. Qed.

Ltac flatten :=
  repeat (rewrite append_assoc || rewrite append_cons || rewrite append_nil_l).

Lemma dump_items_cons y ys rest :
  dump_items (y :: ys) ++ rest
  = String "," (String " " (json_dumps y ++ (dump_items ys ++ rest))).
Proof.
  change (dump_items (y :: ys)) with (", " ++ json_dumps y ++ dump_items ys).
  now rewrite !append_assoc.
Qed.

Lemma dump_members_cons k y ms rest :
  dump_members ((k, y) :: ms) ++ rest
  = String "," (String " "
      (encode_basestring_ascii k ++
       String ":" (String " " (json_dumps y ++ (dump_members ms ++ rest))))).
Proof.
  change (dump_members ((k, y) :: ms))
    with (", " ++ encode_basestring_ascii k ++ ": " ++ json_dumps y ++ dump_members ms).
  now rewrite !append_assoc.
Qed.

Lemma terminated_dump_items xs rest : terminated (dump_items xs ++ rest) = true.
Proof. destruct xs; [reflexivity | now rewrite dump_items_cons]. Qed.

Lemma terminated_dump_members ms rest :
  terminated (dump_members ms ++ rest) = true.
Proof. destruct ms as [| [k y] ms]; [reflexivity | now rewrite dump_members_cons]. Qed.

Lemma skip_ws_space_value v tail :
  json_ok v = true ->
  skip_ws (String " " (json_dumps v ++ tail)) = json_dumps v ++ tail.
Proof.
  intros Hv. change (skip_ws (String " " ?x)) with (skip_ws x).
  now apply skip_ws_json_dumps.
Qed.

Lemma scan_once_open_array fuel x tail :
  json_ok x = true ->
  scan_once (S fuel) (String "[" (json_dumps x ++ tail)) =
  '(values, rest) ← array_items fuel (json_dumps x ++ tail);
  Ok (VList values, rest).
Proof.
  intros Hx. destruct (json_dumps_head x Hx) as (c & r & -> & Hc).
  change (String c r ++ tail) with (String c (r ++ tail)).
  cbn [scan_once Ascii.eqb Bool.eqb dquote].
  rewrite (skip_ws_value c _ Hc).
  unfold value_start in Hc. apply andb_prop in Hc as [_ Hc].
  apply negb_true_iff in Hc. rewrite Hc. reflexivity.
Qed.

Lemma scan_once_open_object fuel body :
  scan_once (S fuel) (String "{" (String dquote body)) =
  '(pairs, rest) ← object_members fuel body;
  Ok (VDict (dict_of_pairs pairs), rest).
Proof. reflexivity. Qed.

Lemma array_items_last fuel s v rest :
  scan_once fuel s = Ok (v, String "]" rest) ->
  array_items (S fuel) s = Ok ([v], rest).
Proof. intros H. cbn [array_items]. rewrite H. reflexivity. Qed.

Ltac step_delimiter :=
  cbn [mbind result_bind];
  repeat match goal with
    | |- context [skip_ws (String "," ?x)] =>
        change (skip_ws (String "," x)) with (String "," x)
    | |- context [skip_ws (String ":" ?x)] =>
        change (skip_ws (String ":" x)) with (String ":" x)
    | |- context [skip_ws (String "}" ?x)] =>
        change (skip_ws (String "}" x)) with (String "}" x)
    | |- context [skip_ws (String "]" ?x)] =>
        change (skip_ws (String "]" x)) with (String "]" x)
    end;
  cbn [Ascii.eqb Bool.eqb].

Lemma array_items_more fuel s v y tail vs rest :
  json_ok y = true ->
  scan_once fuel s = Ok (v, String "," (String " " (json_dumps y ++ tail))) ->
  array_items fuel (json_dumps y ++ tail) = Ok (vs, rest) ->
  array_items (S fuel) s = Ok (v :: vs, rest).
Proof.
  intros Hy H Hvs. cbn [array_items]. rewrite H. step_delimiter.
  rewrite (skip_ws_space_value y tail Hy), Hvs. reflexivity.
Qed.

Lemma object_members_last fuel s key x tail v rest :
  json_ok x = true ->
  scanstring s = Ok (key, String ":" (String " " (json_dumps x ++ tail))) ->
  scan_once fuel (json_dumps x ++ tail) = Ok (v, String "}" rest) ->
  object_members (S fuel) s = Ok ([(key, v)], rest).
Proof.
  intros Hx Hk Hv. cbn [object_members]. rewrite Hk. step_delimiter.
  rewrite (skip_ws_space_value x tail Hx), Hv. reflexivity.
Qed.

Lemma object_members_more fuel s key x tail v body ms rest :
  json_ok x = true ->
  scanstring s = Ok (key, String ":" (String " " (json_dumps x ++ tail))) ->
  scan_once fuel (json_dumps x ++ tail)
  = Ok (v, String "," (String " " (String dquote body))) ->
  object_members fuel body = Ok (ms, rest) ->
  object_members (S fuel) s = Ok ((key, v) :: ms, rest).
Proof.
  intros Hx Hk Hv Hms. cbn [object_members]. rewrite Hk. step_delimiter.
  rewrite (skip_ws_space_value x tail Hx), Hv. step_delimiter.
  change (skip_ws (String " " (String dquote body))) with (String dquote body).
  cbn [Ascii.eqb Bool.eqb dquote]. rewrite Hms. reflexivity.
Qed.

Lemma need_items_cons x xs : need_items (x :: xs) = S (json_size x) + need_items xs.
Proof. reflexivity. Qed.

Lemma need_members_cons kv ms :
  need_members (kv :: ms) = S (json_size (snd kv)) + need_members ms.
Proof. reflexivity. Qed.

Lemma array_items_dump xs :
  Forall reads_back xs ->
  forall x, reads_back x -> forallb json_ok (x :: xs) = true ->
  forall fuel rest,
    need_items (x :: xs) <= fuel -> terminated rest = true ->
    array_items fuel (json_dumps x ++ (dump_items xs ++ rest))
    = Ok (x :: xs, rest).
Proof.
  induction 1 as [| y ys Hy Hys IH]; intros x Hx Hok fuel rest Hfuel Hr;
    rewrite need_items_cons in Hfuel;
    (destruct fuel as [| fuel]; [lia |]);
    cbn [forallb] in Hok; apply andb_prop in Hok as [Hokx Hok].
  - apply array_items_last.
    apply (Hx Hokx); [lia | reflexivity].
  - pose proof Hok as Hok'. cbn [forallb] in Hok'.
    apply andb_prop in Hok' as [Hoky _].
    rewrite need_items_cons in Hfuel.
    rewrite dump_items_cons.
    eapply (array_items_more _ _ _ y); [exact Hoky | |].
    + apply (Hx Hokx); [lia | reflexivity].
    + apply (IH y Hy Hok); [rewrite need_items_cons; lia | exact Hr].
Qed.

Lemma object_members_dump ms :
  Forall (fun kv => reads_back (snd kv)) ms ->
  forall k x, reads_back x ->
  forallb (fun kv => json_ok (snd kv)) ((k, x) :: ms) = true ->
  forall fuel rest,
    need_members ((k, x) :: ms) <= fuel -> terminated rest = true ->
    object_members fuel
      (escape_chars k ++
       String dquote (String ":" (String " "
         (json_dumps x ++ (dump_members ms ++ rest)))))
    = Ok ((k, x) :: ms, rest).
Proof.
  induction 1 as [| [k' y] ys Hy Hys IH]; intros k x Hx Hok fuel rest Hfuel Hr;
    rewrite need_members_cons in Hfuel; cbn [snd] in Hfuel;
    (destruct fuel as [| fuel]; [lia |]);
    cbn [forallb snd] in Hok; apply andb_prop in Hok as [Hokx Hok].
  - eapply (object_members_last _ _ _ x); [exact Hokx | |].
    + apply scanstring_escape_chars.
    + apply (Hx Hokx); [lia | reflexivity].
  - rewrite need_members_cons in Hfuel. cbn [snd] in Hfuel.
    rewrite dump_members_cons.
    eapply (object_members_more _ _ _ x); [exact Hokx | | |].
    + apply scanstring_escape_chars.
    + apply (Hx Hokx); [lia | reflexivity].
    + unfold encode_basestring_ascii.
      change (String dquote ?a ++ ?b) with (String dquote (a ++ b)).
      rewrite append_assoc.
      change (String dquote "" ++ ?b) with (String dquote b).
      apply (IH k' y Hy Hok);
        [rewrite need_members_cons; cbn [snd]; lia | exact Hr].
Qed.

(** The scanner reads a printed value back, whatever follows it. *)
Theorem scan_once_json_dumps v : reads_back v.
Proof.
  induction v as [| b | z | repr | s | items IH | entries IH]
    using pyval_nested_ind;
    intros Hok fuel rest Hfuel Hr;
    (destruct fuel as [| fuel]; [simpl in Hfuel; lia |]).
  - reflexivity.
  - destruct b; reflexivity.
  - apply scan_once_number; [apply match_number_repr_int | exact Hr].
  - now apply scan_once_float.
  - cbn [json_dumps]. unfold encode_basestring_ascii.
    change (String dquote ?a ++ ?b) with (String dquote (a ++ b)).
    rewrite append_assoc.
    change (String dquote "" ++ ?b) with (String dquote b).
    cbn [scan_once Ascii.eqb Bool.eqb dquote].
    change (String "034" rest) with (String dquote rest).
    rewrite scanstring_escape_chars. reflexivity.
  - destruct items as [| x xs]; [reflexivity |].
    rewrite json_dumps_list.
    change ("[" ++ ?a) with (String "[" a).
    change (String "[" ?a ++ ?b) with (String "[" (a ++ b)).
    rewrite append_assoc.
    cbn [json_ok] in Hok. pose proof Hok as Hok'. cbn [forallb] in Hok'.
    apply andb_prop in Hok' as [Hokx _].
    rewrite (scan_once_open_array _ _ _ Hokx).
    inversion IH as [| ? ? Hx Hxs]; subst.
    rewrite (array_items_dump xs Hxs x Hx Hok fuel rest); [reflexivity | | exact Hr].
    cbn [json_size] in Hfuel. fold (need_items (x :: xs)) in Hfuel. lia.
  - destruct entries as [| [k x] ms]; [reflexivity |].
    rewrite json_dumps_dict. unfold encode_basestring_ascii. flatten.
    rewrite scan_once_open_object.
    cbn [json_ok] in Hok. apply andb_prop in Hok as [Hkeys Hok].
    inversion IH as [| ? ? Hx Hxs]; subst. cbn [snd] in Hx.
    rewrite (object_members_dump ms Hxs k x Hx Hok fuel rest);
      [| cbn [json_size] in Hfuel; fold (need_members ((k, x) :: ms)) in Hfuel; lia
       | exact Hr].
    cbn [mbind result_bind].
    now rewrite (dict_of_pairs_distinct _ Hkeys).
Qed.

(** ** The whole text *)

Lemma length_append (a b : string) :
  String.length (a ++ b) = String.length a + String.length b.
Proof. induction a as [| c a IH]; simpl; [reflexivity | now rewrite IH]. Qed.

Lemma need_items_length xs :
  Forall (fun x => json_ok x = true -> json_size x <= String.length (json_dumps x)) xs ->
  forallb json_ok xs = true ->
  S (need_items xs) <= String.length (dump_items xs).
Proof.
  induction 1 as [| y ys Hy Hys IH]; intros Hok.
  - simpl. unfold need_items. simpl. lia.
  - cbn [forallb] in Hok. apply andb_prop in Hok as [Hoky Hok].
    rewrite need_items_cons.
    change (dump_items (y :: ys)) with (", " ++ json_dumps y ++ dump_items ys).
    rewrite !length_append. specialize (Hy Hoky). specialize (IH Hok).
    simpl String.length. lia.
Qed.

Lemma need_members_length ms :
  Forall (fun kv => json_ok (snd kv) = true ->
                    json_size (snd kv) <= String.length (json_dumps (snd kv))) ms ->
  forallb (fun kv => json_ok (snd kv)) ms = true ->
  S (need_members ms) <= String.length (dump_members ms).
Proof.
  induction 1 as [| [k y] ys Hy Hys IH]; intros Hok.
  - simpl. unfold need_members. simpl. lia.
  - cbn [forallb snd] in Hok. apply andb_prop in Hok as [Hoky Hok].
    rewrite need_members_cons. cbn [snd] in *.
    change (dump_members ((k, y) :: ys))
      with (", " ++ encode_basestring_ascii k ++ ": " ++ json_dumps y
            ++ dump_members ys).
    rewrite !length_append. specialize (Hy Hoky). specialize (IH Hok).
    simpl String.length. lia.
Qed.

Lemma size_le_length v :
  json_ok v = true -> json_size v <= String.length (json_dumps v).
Proof.
  induction v as [| b | z | repr | s | items IH | entries IH]
    using pyval_nested_ind; intros Hok;
    try (destruct (json_dumps_head _ Hok) as (c & r & -> & _); simpl; lia).
  - destruct items as [| x xs]; [simpl; lia |].
    rewrite json_dumps_list, !length_append. cbn [json_size json_ok forallb] in *.
    apply andb_prop in Hok as [Hokx Hok].
    inversion IH as [| ? ? Hx Hxs]; subst.
    pose proof (need_items_length xs Hxs Hok). specialize (Hx Hokx).
    fold (need_items (x :: xs)). rewrite need_items_cons.
    simpl String.length. lia.
  - destruct entries as [| [k x] ms]; [simpl; lia |].
    rewrite json_dumps_dict, !length_append. cbn [json_size json_ok] in *.
    apply andb_prop in Hok as [_ Hok]. cbn [forallb snd] in Hok.
    apply andb_prop in Hok as [Hokx Hok].
    inversion IH as [| ? ? Hx Hxs]; subst. cbn [snd] in Hx.
    pose proof (need_members_length ms Hxs Hok). specialize (Hx Hokx).
    fold (need_members ((k, x) :: ms)). rewrite need_members_cons. cbn [snd].
    simpl String.length. lia.
Qed.

(** [json.loads(json.dumps(v))] is [v]. *)
Theorem json_decode_json_dumps v :
  json_ok v = true -> json_decode (json_dumps v) = Ok v.
Proof.
  intros Hok. unfold json_decode.
  rewrite <- (append_nil_r (json_dumps v)) at 2.
  rewrite skip_ws_json_dumps by exact Hok.
  rewrite (scan_once_json_dumps v Hok); [reflexivity | | reflexivity].
  pose proof (size_le_length v Hok). lia.
Qed.

(** The text of an object is read as UTF-8: it starts with a brace and a
    quote or a second brace, neither a byte order mark nor a NUL. *)
Lemma detect_utf8_object d :
  detect_utf8 (encode_utf8 (json_dumps (VDict d))) = true.
Proof.
  destruct d as [| [k x] ms]; [reflexivity |].
  rewrite json_dumps_dict. unfold encode_basestring_ascii. flatten.
  destruct (escape_chars k +:+ String dquote
              (String ":" (String " " (json_dumps x +:+ dump_members ms))))
    as [| [b0 b1 b2 b3 b4 b5 b6 [|]] [| [c0 c1 c2 c3 c4 c5 c6 [|]] r]];
    reflexivity.
Qed.

(** [json.loads(json.dumps(d).encode("utf-8"))] is [d], for an object. *)
Theorem json_loads_json_dumps d :
  json_ok (VDict d) = true ->
  json_loads (encode_utf8 (json_dumps (VDict d))) = Ok (VDict d).
Proof.
  intros Hok. unfold json_loads.
  rewrite detect_utf8_object, decode_utf8_encode_utf8.
  cbn [mbind result_bind]. now apply json_decode_json_dumps.
Qed.

(** ** The exceptions of the decoders *)










Lemma PagingRequest_laws : ProtocolModelLaws PagingRequest.
Proof.
  split.
  - intros x. eexists. reflexivity.
  - intros [[s |] [f |] [k |] [t |]]; reflexivity.
  - intros [[s |] [f |] [k |] [t |]]; reflexivity.
Qed.

Section CodecFacts.

Context {SearchRequest : Type} `{!ProtocolModel SearchRequest}.


(** Decoding the token of a JSON object reads the two entries of the object
    and nothing else. *)
Lemma unpack_encode_token d :
  json_ok (VDict d) = true ->
  unpack_continuation_token (encode_token (VDict d)) =
  (next_link ← getitem (VDict d) "nextLink";
   next_page_parameters ← getitem (VDict d) "nextPageParameters";
   next_page_request ← deserialize (T := SearchRequest) next_page_parameters;
   Ok next_link).
Proof.
  intros Hok. unfold unpack_continuation_token, encode_token.
  rewrite b64decode_b64encode. cbn [mbind result_bind].
  rewrite (json_loads_json_dumps d Hok). reflexivity.
Qed.

Context `{!ProtocolModelLaws SearchRequest}.

Lemma json_ok_token_object link (parameters : SearchRequest) :
  json_ok (token_object link parameters) = true.
Proof.
  unfold token_object. cbn. now rewrite serialize_json.
Qed.

Lemma pack_continuation_token_encode (response : SearchDocumentsResult) parameters :
  next_page_parameters response = Some parameters ->
  pack_continuation_token response
  = Some (encode_token (token_object (next_link response) parameters)).
Proof. intros H. unfold pack_continuation_token. now rewrite H. Qed.

Lemma unpack_token_object link (parameters : SearchRequest) :
  unpack_continuation_token (encode_token (token_object link parameters))
  = Ok (VStr link).
Proof.
  unfold token_object.
  rewrite unpack_encode_token by apply json_ok_token_object.
  cbn. now rewrite deserialize_serialize.
Qed.

(** What decoding gives on a token made by [pack_continuation_token]. *)
Lemma unpack_packed_token (response : SearchDocumentsResult)
    (parameters : SearchRequest) (token : pydata) :
  next_page_parameters response = Some parameters ->
  pack_continuation_token response = Some token ->
  unpack_continuation_token token = Ok (VStr (next_link response)).
Proof.
  intros Hnpp Htoken.
  rewrite (pack_continuation_token_encode response parameters Hnpp) in Htoken.
  assert (Et : token
               = encode_token (token_object (next_link response) parameters))
    by congruence.
  subst token. apply unpack_token_object.
Qed.

End CodecFacts.

(** ** The continuation-token codec *)

(** C4 as stated fails: the token is no plain string. For the response of
    the example [pack_continuation_token] returns a [bytes] object, as
    [base64.b64encode] does, and not a [str]. *)
Lemma pack_continuation_token_returns_bytes :
  pack_continuation_token example_response = Some example_token /\
  (exists b, example_token = Bytes b) /\
  ~ (exists s, pack_continuation_token example_response = Some (Str s)).
Proof.
  split; [vm_compute; reflexivity |]. split; [eexists; reflexivity |].
  intros (s & H).
  assert (E : Some example_token = Some (Str s))
    by (rewrite <- H; vm_compute; reflexivity).
  discriminate E.
Qed.

(** C4, as the code has it. [pack_continuation_token] returns a token
    exactly when the response carries paging-continuation data, and [None]
    otherwise. A token is a [bytes] object: the base-64 encoding of the
    UTF-8 bytes of a JSON object with three keys, ["apiVersion"] with the
    protocol-version string, ["nextLink"] with the link of the response, and
    ["nextPageParameters"] with the serialized paging-continuation object,
    itself a JSON object. Every byte of it is of the base-64 alphabet or the
    padding sign, and decoding it and reading the JSON gives that three-key
    object back. *)
Theorem pack_continuation_token_shape
    {SearchRequest : Type} `{!ProtocolModel SearchRequest}
    (Hlaws : ProtocolModelLaws SearchRequest)
    (response : SearchDocumentsResult) :
  (pack_continuation_token response = None <->
   next_page_parameters response = None) /\
  (forall token,
      pack_continuation_token response = Some token ->
      exists parameters nested,
        next_page_parameters response = Some parameters /\
        serialize parameters = VDict nested /\
        let payload :=
          VDict [("apiVersion", VStr api_version);
                 ("nextLink", VStr (next_link response));
                 ("nextPageParameters", VDict nested)] in
        let encoded := b64encode (encode_utf8 (json_dumps payload)) in
        token = Bytes encoded /\
        all_chars is_b64_char encoded = true /\
        b64decode token ≫= json_loads = Ok payload).
Proof.
  split.
  - unfold pack_continuation_token.
    destruct (next_page_parameters response); split; congruence.
  - intros token Htoken.
    destruct (next_page_parameters response) as [parameters |] eqn:Hnpp;
      [| unfold pack_continuation_token in Htoken; rewrite Hnpp in Htoken;
         discriminate].
    rewrite (pack_continuation_token_encode response parameters Hnpp) in Htoken.
    assert (Et : token
                 = encode_token (token_object (next_link response) parameters))
      by congruence.
    clear Htoken. subst token.
    destruct (serialize_object parameters) as [nested Hnested].
    exists parameters, nested. split; [reflexivity |]. split; [exact Hnested |].
    pose proof (json_ok_token_object (next_link response) parameters) as Hok.
    unfold token_object in *. rewrite Hnested in *. cbv zeta.
    unfold encode_token.
    split; [reflexivity |]. split; [apply b64encode_alphabet |].
    rewrite b64decode_b64encode. cbn [mbind result_bind].
    now apply json_loads_json_dumps.
Qed.

Lemma pack_continuation_token_shape_witness :
  (pack_continuation_token example_response = None <->
   next_page_parameters example_response = None) /\
  (forall token,
      pack_continuation_token example_response = Some token ->
      exists parameters nested,
        next_page_parameters example_response = Some parameters /\
        serialize parameters = VDict nested /\
        let payload :=
          VDict [("apiVersion", VStr api_version);
                 ("nextLink", VStr (next_link example_response));
                 ("nextPageParameters", VDict nested)] in
        let encoded := b64encode (encode_utf8 (json_dumps payload)) in
        token = Bytes encoded /\
        all_chars is_b64_char encoded = true /\
        b64decode token ≫= json_loads = Ok payload).
Proof.
  exact (pack_continuation_token_shape PagingRequest_laws example_response).
Defined.

(** C1, as the code has it. Decoding the token made for a response gives the
    next link that the response carried, and only that: the result is the
    link string, and the paging-parameters object that the function
    deserializes on the way is not part of what it returns. *)
Theorem unpack_continuation_token_returns_link_only
    {SearchRequest : Type} `{!ProtocolModel SearchRequest}
    (Hlaws : ProtocolModelLaws SearchRequest)
    (response : SearchDocumentsResult) (parameters : SearchRequest)
    (token : pydata) :
  next_page_parameters response = Some parameters ->
  pack_continuation_token response = Some token ->
  unpack_continuation_token token = Ok (VStr (next_link response)) /\
  unpack_pair (VStr (next_link response))
  <> Ok (VStr (next_link response), serialize parameters).
Proof.
  intros Hnpp Htoken. split.
  - exact (unpack_packed_token response parameters token Hnpp Htoken).
  - destruct (next_link response) as [| a [| b [| c r]]]; cbn; discriminate.
Qed.

Lemma unpack_continuation_token_returns_link_only_witness :
  unpack_continuation_token (SearchRequest := PagingRequest) example_token
  = Ok (VStr example_link) /\
  unpack_pair (VStr example_link)
  <> Ok (VStr example_link, serialize example_parameters).
Proof.
  apply (unpack_continuation_token_returns_link_only PagingRequest_laws
           example_response example_parameters example_token);
    vm_compute; reflexivity.
Defined.

(** C2, as the code has it. On the token made for a response the callback
    [_unpack_next_link] never returns the decoded link: it takes the result
    of [unpack_continuation_token] apart as a pair, and that result is the
    link string alone. With a link that is not two characters long the
    callback raises [ValueError]. *)
Theorem unpack_next_link_never_returns_link
    {SearchRequest : Type} `{!ProtocolModel SearchRequest}
    (Hlaws : ProtocolModelLaws SearchRequest)
    (response : SearchDocumentsResult) (parameters : SearchRequest)
    (token : pydata) :
  next_page_parameters response = Some parameters ->
  pack_continuation_token response = Some token ->
  _unpack_next_link (Some token) <> Ok (VStr (next_link response)) /\
  (String.length (next_link response) <> 2 ->
   _unpack_next_link (Some token) = Raise ValueError).
Proof.
  intros Hnpp Htoken. unfold _unpack_next_link.
  rewrite (unpack_packed_token response parameters token Hnpp Htoken).
  cbn [mbind result_bind].
  destruct (next_link response) as [| a [| b [| c r]]]; cbn;
    split; try discriminate; try reflexivity; intros H; now destruct H.
Qed.

Lemma unpack_next_link_never_returns_link_witness :
  _unpack_next_link (SearchRequest := PagingRequest) (Some example_token)
  <> Ok (VStr example_link) /\
  (String.length example_link <> 2 ->
   _unpack_next_link (SearchRequest := PagingRequest) (Some example_token)
   = Raise ValueError).
Proof.
  apply (unpack_next_link_never_returns_link PagingRequest_laws
           example_response example_parameters example_token);
    vm_compute; reflexivity.
Defined.




(** ** The client facade *)

Section ClientFacts.

Context {SearchRequest SuggestRequest AutocompleteRequest reply : Type}.
Variable search_text_request : string -> SearchRequest.
Variable results_as_dicts : reply -> reply.

#[local] Abbreviation call' := (call SearchRequest SuggestRequest AutocompleteRequest).
#[local] Abbreviation kwargs' :=
  (list (string * argval SearchRequest SuggestRequest AutocompleteRequest)).

Variable transport : call' -> result reply.

Implicit Types (self : client) (kwargs : kwargs') (log : list call').

Lemma search_query self request kwargs log :
  search search_text_request transport self (OSearchQuery request) kwargs log =
  match _merge_client_headers self (dict_get "headers" kwargs) with
  | Ok _ => (transport (search_call request), (log ++ [search_call request])%list)
  | Raise e => (Raise e, log)
  | Unmodelled => (Unmodelled, log)
  end.
Proof.
  unfold search, with_client_headers, and_then, lift.
  destruct (_merge_client_headers self (dict_get "headers" kwargs));
    reflexivity.
Qed.

(** Every call that [search] records is without headers. *)
Lemma search_drops_headers self query kwargs log out log' :
  search search_text_request transport self query kwargs log = (out, log') ->
  log' = log \/
  exists c, log' = (log ++ [c])%list /\ call_headers c = None.
Proof.
  unfold search, with_client_headers, and_then, lift.
  destruct query as [[] | request | |]; try (intros [= <- <-]; now left);
    (destruct (_merge_client_headers self (dict_get "headers" kwargs));
     intros [= <- <-]; [right | now left | now left];
     eexists; split; reflexivity).
Qed.

(** [suggest] hands the merged headers to the transport. *)
Lemma suggest_sends_headers self request kwargs log merged :
  _merge_client_headers self (dict_get "headers" kwargs) = Ok merged ->
  dict_get "suggest_request" kwargs = None ->
  exists c,
    (suggest results_as_dicts transport self (OSuggestQuery request) kwargs
       log).2 = (log ++ [c])%list /\
    call_headers c = Some merged.
Proof.
  intros Hm Hfree.
  unfold suggest, with_client_headers, and_then, lift, invoke. rewrite Hm.
  cbn [existsb dict_keys map fst orb].
  assert (Hfree' : dict_get "suggest_request" (dict_set "headers" merged kwargs)
                   = None)
    by (rewrite dict_get_set_ne; [exact Hfree | discriminate]).
  rewrite Hfree'.
  rewrite bool_decide_eq_false_2 by (intros [? ?]; discriminate).
  eexists. split.
  - destruct (transport _); reflexivity.
  - unfold call_headers. cbn [call_kwargs app dict_get String.eqb Ascii.eqb Bool.eqb].
    apply dict_get_set_eq.
Qed.

End ClientFacts.

(** C8. [search] wraps a plain string into the default query for that
    search text, uses a [SearchQuery] as it is, and for any other argument
    (an integer, say) raises [TypeError] with the record of transport calls
    unchanged: nothing has been sent. *)
Theorem search_type_guard
    {SearchRequest SuggestRequest AutocompleteRequest reply : Type}
    (search_text_request : string -> SearchRequest)
    (transport :
       call SearchRequest SuggestRequest AutocompleteRequest -> result reply)
    (self : client)
    (kwargs : list (string * argval SearchRequest SuggestRequest
                                AutocompleteRequest))
    (log : list (call SearchRequest SuggestRequest AutocompleteRequest)) :
  (forall text,
      search search_text_request transport self (OVal (VStr text)) kwargs log
      = search search_text_request transport self
          (OSearchQuery (search_text_request text)) kwargs log) /\
  (forall request merged,
      _merge_client_headers self (dict_get "headers" kwargs) = Ok merged ->
      search search_text_request transport self (OSearchQuery request) kwargs log
      = (transport (search_call request), (log ++ [search_call request])%list)) /\
  (forall query,
      (forall text, query <> OVal (VStr text)) ->
      (forall request, query <> OSearchQuery request) ->
      search search_text_request transport self query kwargs log
      = (Raise TypeError, log)).
Proof.
  repeat split.
  - intros request merged Hm. rewrite search_query, Hm. reflexivity.
  - intros query Hstr Hq.
    destruct query as [[] | request | |]; try reflexivity.
    + now destruct (Hstr s).
    + now destruct (Hq request).
Qed.

Lemma search_type_guard_witness :
  search text_request echo_transport example_client (OVal (VInt 3))
    example_kwargs []
  = (Raise TypeError, []).
Proof.
  apply (search_type_guard text_request echo_transport example_client
           example_kwargs []).
  - discriminate.
  - discriminate.
Defined.

(** C7, as the code has it. [search] merges the caller's headers with the
    client's and then calls the transport without them: whatever the
    arguments, a call that [search] records carries no headers. On the
    example the one call recorded is the bare [search_post] call, while
    [suggest], given the same keyword arguments, sends the merged headers,
    the caller's [Accept] over the client's. *)
Theorem search_request_carries_no_headers :
  (forall (SearchRequest SuggestRequest AutocompleteRequest reply : Type)
          (search_text_request : string -> SearchRequest)
          (transport :
             call SearchRequest SuggestRequest AutocompleteRequest
             -> result reply)
          (self : client) (query : pyobj _ _ _)
          (kwargs : list (string * argval _ _ _)) (log log' : list (call _ _ _))
          (out : result reply),
      search search_text_request transport self query kwargs log = (out, log') ->
      log' = log \/
      exists c, log' = (log ++ [c])%list /\ call_headers c = None) /\
  (search text_request echo_transport example_client (OVal (VStr "pool"))
     example_kwargs []).2
  = [example_search_call] /\
  call_headers example_search_call = None /\
  map call_headers
    (suggest id echo_transport example_client
       (OSuggestQuery (text_request "po")) example_kwargs []).2
  = [Some (AVal (VDict [("api-key", VStr "secret");
                        ("Accept", VStr "application/json");
                        ("x-ms-client-request-id", VStr "abc")]))].
Proof.
  split.
  - intros. eapply search_drops_headers. eassumption.
  - repeat split; vm_compute; reflexivity.
Qed.

Lemma search_request_carries_no_headers_witness :
  [example_search_call] = [] \/
  exists c, [example_search_call] = ([] ++ [c])%list /\ call_headers c = None.
Proof.
  apply (proj1 search_request_carries_no_headers _ _ _ _
           text_request echo_transport example_client (OVal (VStr "pool"))
           example_kwargs [] [example_search_call] (Ok tt)).
  vm_compute. reflexivity.
Defined.

(** * Further properties *)

(** ** The OData escaping helper, continued *)

Lemma str_format_from_char c r kw :
  not_brace c = true ->
  str_format_from None (String c r) kw
  = (out ← str_format_from None r kw; Ok (String c out)).
Proof.
  destruct c as [[] [] [] [] [] [] [] []]; try discriminate; reflexivity.
Qed.

Lemma str_format_from_text pre s kw :
  all_chars not_brace pre = true ->
  str_format_from None (pre ++ s) kw
  = (out ← str_format_from None s kw; Ok (pre ++ out)).
Proof.
  induction pre as [| c pre IH]; intros H.
  - cbn. now destruct (str_format_from None s kw).
  - cbn [all_chars] in H. apply andb_true_iff in H as [Hc Hpre].
    cbn [String.append]. rewrite str_format_from_char by exact Hc.
    rewrite IH by exact Hpre.
    now destruct (str_format_from None s kw).
Qed.

Lemma str_format_from_field_char acc c r kw :
  Ascii.eqb c "}" = false ->
  str_format_from (Some acc) (String c r) kw
  = str_format_from (Some (acc ++ String c "")) r kw.
Proof.
  destruct c as [[] [] [] [] [] [] [] []]; try discriminate; reflexivity.
Qed.

Lemma str_format_from_field acc name r kw :
  all_chars not_brace name = true ->
  str_format_from (Some acc) (name ++ String "}" r) kw
  = (text ← format_field (acc ++ name) kw;
     out ← str_format_from None r kw;
     Ok (text ++ out)).
Proof.
  revert acc. induction name as [| c name IH]; intros acc H.
  - cbn [String.append]. now rewrite append_nil_r.
  - cbn [all_chars] in H. apply andb_true_iff in H as [Hc Hname].
    cbn [String.append].
    rewrite str_format_from_field_char
      by (unfold not_brace in Hc; apply andb_true_iff in Hc as [_ Hc];
          now apply negb_true_iff in Hc).
    rewrite IH by exact Hname.
    now rewrite append_assoc.
Qed.

Lemma str_format_placeholder pre name post kw :
  all_chars not_brace pre = true ->
  all_chars not_brace name = true ->
  str_format (pre ++ String "{" (name ++ String "}" post)) kw
  = (text ← format_field name kw;
     out ← str_format post kw;
     Ok (pre ++ text ++ out)).
Proof.
  intros Hpre Hname. unfold str_format.
  rewrite str_format_from_text by exact Hpre.
  assert (E : str_format_from None (String "{" (name ++ String "}" post)) kw
              = str_format_from (Some "") (name ++ String "}" post) kw).
  { destruct name as [| c name]; [reflexivity |].
    cbn [String.append]. cbn [all_chars] in Hname.
    apply andb_true_iff in Hname as [Hc _].
    destruct c as [[] [] [] [] [] [] [] []]; try discriminate; reflexivity. }
  rewrite E, str_format_from_field by exact Hname.
  cbn [String.append].
  destruct (format_field name kw); cbn [mbind result_bind]; try reflexivity.
  destruct (str_format_from None post kw); reflexivity.
Qed.

Lemma str_format_text s kw :
  all_chars not_brace s = true -> str_format s kw = Ok s.
Proof.
  intros H. unfold str_format.
  rewrite <- (append_nil_r s) at 1. rewrite str_format_from_text by exact H.
  cbn. now rewrite append_nil_r.
Qed.

(** X1. [odata] returns a template without braces as it is, whatever keyword
    arguments come with it: a keyword argument that the template does not
    use is not an error and changes nothing. *)
Theorem odata_without_placeholders (statement : string) (kwargs : pydict) :
  all_chars not_brace statement = true ->
  odata statement kwargs = Ok statement.
Proof. intros H. unfold odata. now apply str_format_text. Qed.

Lemma odata_without_placeholders_witness :
  odata "name eq 'O''Neil'" [("name", VStr "x")] = Ok "name eq 'O''Neil'".
Proof.
  apply (odata_without_placeholders "name eq 'O''Neil'" [("name", VStr "x")]).
  reflexivity.
Defined.

(** *** The format parser, step by step *)

Lemma str_format_from_open c r kw :
  Ascii.eqb c "{" = false ->
  str_format_from None (String "{" (String c r)) kw
  = str_format_from (Some "") (String c r) kw.
Proof.
  destruct c as [[] [] [] [] [] [] [] []]; try discriminate; reflexivity.
Qed.

Lemma str_format_from_close c r kw :
  Ascii.eqb c "}" = false ->
  str_format_from None (String "}" (String c r)) kw = Raise ValueError.
Proof.
  destruct c as [[] [] [] [] [] [] [] []]; try discriminate; reflexivity.
Qed.

Lemma not_brace_cases c :
  c = "{"%char \/ c = "}"%char \/ not_brace c = true.
Proof.
  unfold not_brace.
  destruct (Ascii.eqb_spec c "{") as [-> | _]; [now left |].
  destruct (Ascii.eqb_spec c "}") as [-> | _]; [right; now left |].
  right. now right.
Qed.

(** A template that [str.format] accepts can be followed by any text: its
    own output is not affected. *)
Lemma str_format_from_app kw s n : forall pre field out,
  String.length pre <= n ->
  str_format_from field pre kw = Ok out ->
  str_format_from field (pre ++ s) kw
  = (rest ← str_format_from None s kw; Ok (out ++ rest)).
Proof.
  induction n as [| n IH]; intros pre field out Hlen H.
  - destruct pre; [| cbn in Hlen; lia].
    destruct field; cbn in H; [discriminate |]. injection H as <-.
    cbn [String.append]. now destruct (str_format_from None s kw).
  - destruct pre as [| c pre].
    { destruct field; cbn in H; [discriminate |]. injection H as <-.
      cbn [String.append]. now destruct (str_format_from None s kw). }
    cbn [String.length] in Hlen.
    destruct field as [acc |].
    + destruct (Ascii.eqb_spec c "}") as [-> | Hc].
      * cbn [str_format_from] in H. cbn [String.append str_format_from].
        destruct (format_field acc kw) as [text | |]; cbn [mbind result_bind] in *;
          try discriminate.
        destruct (str_format_from None pre kw) as [out' | |] eqn:E;
          cbn [mbind result_bind] in H; try discriminate.
        injection H as <-.
        rewrite (IH pre None out') by (assumption || lia).
        destruct (str_format_from None s kw); cbn [mbind result_bind];
          try reflexivity.
        now rewrite append_assoc.
      * apply Ascii.eqb_neq in Hc. cbn [String.append].
        rewrite str_format_from_field_char in * by exact Hc.
        apply IH; [lia | exact H].
    + destruct (not_brace_cases c) as [-> | [-> | Hc]].
      * destruct pre as [| c2 pre]; [cbn in H; discriminate |].
        destruct (Ascii.eqb_spec c2 "{") as [-> | Hc2].
        -- cbn [str_format_from] in H. cbn [String.append str_format_from].
           destruct (str_format_from None pre kw) as [out' | |] eqn:E;
             cbn [mbind result_bind] in H; try discriminate.
           injection H as <-.
           rewrite (IH pre None out') by (cbn in Hlen; assumption || lia).
           now destruct (str_format_from None s kw).
        -- apply Ascii.eqb_neq in Hc2. cbn [String.append].
           rewrite str_format_from_open in * by exact Hc2.
           apply (IH (String c2 pre)); [lia | exact H].
      * destruct pre as [| c2 pre]; [cbn in H; discriminate |].
        destruct (Ascii.eqb_spec c2 "}") as [-> | Hc2].
        -- cbn [str_format_from] in H. cbn [String.append str_format_from].
           destruct (str_format_from None pre kw) as [out' | |] eqn:E;
             cbn [mbind result_bind] in H; try discriminate.
           injection H as <-.
           rewrite (IH pre None out') by (cbn in Hlen; assumption || lia).
           now destruct (str_format_from None s kw).
        -- apply Ascii.eqb_neq in Hc2.
           rewrite str_format_from_close in H by exact Hc2. discriminate.
      * cbn [String.append]. rewrite str_format_from_char in * by exact Hc.
        destruct (str_format_from None pre kw) as [out' | |] eqn:E;
          cbn [mbind result_bind] in H; try discriminate.
        injection H as <-.
        rewrite (IH pre None out') by (assumption || lia).
        now destruct (str_format_from None s kw).
Qed.

(** Whether [str.format] accepts a template depends on the keyword
    arguments only through the fields that they can fill. *)
Lemma str_format_from_accepts kw1 kw2 n : forall s field out,
  (forall name text, format_field name kw1 = Ok text ->
                     exists text', format_field name kw2 = Ok text') ->
  String.length s <= n ->
  str_format_from field s kw1 = Ok out ->
  exists out', str_format_from field s kw2 = Ok out'.
Proof.
  intros s field out Hkw. revert s field out.
  induction n as [| n IH]; intros s field out Hlen H.
  - destruct s; [| cbn in Hlen; lia].
    destruct field; cbn in *; [discriminate | now exists ""].
  - destruct s as [| c s].
    { destruct field; cbn in *; [discriminate | now exists ""]. }
    cbn [String.length] in Hlen.
    destruct field as [acc |].
    + destruct (Ascii.eqb_spec c "}") as [-> | Hc].
      * cbn [str_format_from] in *.
        destruct (format_field acc kw1) as [text | |] eqn:Ef;
          cbn [mbind result_bind] in H; try discriminate.
        destruct (Hkw _ _ Ef) as (text' & ->).
        destruct (str_format_from None s kw1) as [out1 | |] eqn:E;
          cbn [mbind result_bind] in H; try discriminate.
        destruct (IH s None out1) as (out' & ->); [lia | exact E |].
        cbn [mbind result_bind]. eauto.
      * apply Ascii.eqb_neq in Hc.
        rewrite str_format_from_field_char in * by exact Hc.
        eapply IH; [| exact H]. lia.
    + destruct (not_brace_cases c) as [-> | [-> | Hc]].
      * destruct s as [| c2 s]; [cbn in H; discriminate |].
        destruct (Ascii.eqb_spec c2 "{") as [-> | Hc2].
        -- cbn [str_format_from] in *.
           destruct (str_format_from None s kw1) as [out1 | |] eqn:E;
             cbn [mbind result_bind] in H; try discriminate.
           destruct (IH s None out1) as (out' & ->);
             [cbn in Hlen; lia | exact E |].
           cbn [mbind result_bind]. eauto.
        -- apply Ascii.eqb_neq in Hc2.
           rewrite str_format_from_open in * by exact Hc2.
           eapply IH; [| exact H]. lia.
      * destruct s as [| c2 s]; [cbn in H; discriminate |].
        destruct (Ascii.eqb_spec c2 "}") as [-> | Hc2].
        -- cbn [str_format_from] in *.
           destruct (str_format_from None s kw1) as [out1 | |] eqn:E;
             cbn [mbind result_bind] in H; try discriminate.
           destruct (IH s None out1) as (out' & ->);
             [cbn in Hlen; lia | exact E |].
           cbn [mbind result_bind]. eauto.
        -- apply Ascii.eqb_neq in Hc2.
           rewrite str_format_from_close in H by exact Hc2. discriminate.
      * rewrite str_format_from_char in * by exact Hc.
        destruct (str_format_from None s kw1) as [out1 | |] eqn:E;
          cbn [mbind result_bind] in H; try discriminate.
        destruct (IH s None out1) as (out' & ->); [lia | exact E |].
        cbn [mbind result_bind]. eauto.
Qed.





(** The loop of [odata] leaves every value as it is or puts a text in the
    place of a text. *)
Lemma odata_step_get statement kw key name :
  dict_get name (odata_step statement kw key) = dict_get name kw \/
  exists a b, dict_get name kw = Some (VStr a) /\
              dict_get name (odata_step statement kw key) = Some (VStr b).
Proof.
  unfold odata_step.
  destruct (dict_get key kw) as [[] |] eqn:E; try now left.
  destruct (negb _); [| now left].
  destruct (String.eqb_spec key name) as [-> | Hne].
  - right. rewrite dict_get_set_eq. eauto.
  - left. now apply dict_get_set_ne.
Qed.

Lemma format_field_Ok name kw text :
  format_field name kw = Ok text ->
  exists v, dict_get name kw = Some v /\ format_field name kw = str_of v.
Proof.
  unfold format_field.
  destruct (existsb _ _); [discriminate |].
  destruct (all_chars is_digit name);
    [destruct (get_integer 0 name); discriminate |].
  destruct (dict_get name kw) as [v |]; [| discriminate].
  intros _. now exists v.
Qed.

Lemma format_field_odata_step statement kw key name :
  (exists text, format_field name kw = Ok text)
  <-> exists text, format_field name (odata_step statement kw key) = Ok text.
Proof.
  destruct (odata_step_get statement kw key name) as [E | (a & b & Ea & Eb)].
  - unfold format_field. now rewrite E.
  - unfold format_field. rewrite Ea, Eb. cbn [str_of].
    destruct (existsb _ _); [split; intros [? ?]; discriminate |].
    destruct (all_chars is_digit name);
      [destruct (get_integer 0 name); split; intros [? ?]; discriminate |].
    split; intros _; eauto.
Qed.

Lemma format_field_odata_loop statement keys : forall kw name,
  (exists text, format_field name kw = Ok text)
  <-> exists text,
        format_field name (fold_left (odata_step statement) keys kw) = Ok text.
Proof.
  induction keys as [| key keys IH]; intros kw name; [reflexivity |].
  cbn [fold_left]. rewrite <- IH. apply format_field_odata_step.
Qed.

(** A text that [odata] accepts on its own is accepted at the head of any
    template, with the same keyword arguments. *)
Lemma odata_head_accepted pre rest kwargs out :
  odata pre kwargs = Ok out ->
  exists out',
    odata (pre ++ rest) kwargs
    = (tail ← str_format rest
                (fold_left (odata_step (pre ++ rest)) (dict_keys kwargs) kwargs);
       Ok (out' ++ tail)).
Proof.
  unfold odata, str_format. intros H.
  destruct (str_format_from_accepts
              (fold_left (odata_step pre) (dict_keys kwargs) kwargs)
              (fold_left (odata_step (pre ++ rest)) (dict_keys kwargs) kwargs)
              (String.length pre) pre None out) as (out' & Hout');
    [| lia | exact H |].
  - intros name text Hf.
    apply format_field_odata_loop. eapply format_field_odata_loop. eauto.
  - exists out'.
    now apply (str_format_from_app _ rest (String.length pre) pre None out').
Qed.



(** *** Positional fields *)

Lemma digit_value_bounds c : is_digit c = true -> (0 <= digit_value c <= 9)%Z.
Proof.
  unfold is_digit, digit_value. intros H.
  apply andb_true_iff in H as [H1 H2].
  apply Nat.leb_le in H1, H2. lia.
Qed.

Lemma decimal_from_le digits : forall accumulator,
  all_chars is_digit digits = true ->
  (0 <= accumulator)%Z ->
  (accumulator <= decimal_from accumulator digits)%Z.
Proof.
  induction digits as [| c r IH]; intros acc Hd Hacc; cbn [decimal_from];
    [lia |].
  cbn [all_chars] in Hd. apply andb_true_iff in Hd as [Hc Hr].
  pose proof (digit_value_bounds c Hc).
  specialize (IH (acc * 10 + digit_value c)%Z Hr). lia.
Qed.

(** [get_integer] gives the number written, unless it is beyond the largest
    index. *)
Lemma get_integer_decimal digits : forall accumulator,
  all_chars is_digit digits = true ->
  (0 <= accumulator <= PY_SSIZE_T_MAX)%Z ->
  get_integer accumulator digits
  = if (decimal_from accumulator digits <=? PY_SSIZE_T_MAX)%Z
    then Some (decimal_from accumulator digits) else None.
Proof.
  induction digits as [| c r IH]; intros acc Hd Hacc;
    cbn [get_integer decimal_from].
  - destruct (Z.leb_spec acc PY_SSIZE_T_MAX); [reflexivity | lia].
  - cbn [all_chars] in Hd. apply andb_true_iff in Hd as [Hc Hr].
    pose proof (digit_value_bounds c Hc) as Hb.
    assert (Hdiv : (acc > (PY_SSIZE_T_MAX - digit_value c) / 10
                    <-> acc * 10 + digit_value c > PY_SSIZE_T_MAX)%Z).
    { pose proof (Z.div_mod (PY_SSIZE_T_MAX - digit_value c) 10).
      pose proof (Z.mod_pos_bound (PY_SSIZE_T_MAX - digit_value c) 10).
      lia. }
    destruct (Z.gtb_spec acc ((PY_SSIZE_T_MAX - digit_value c) / 10))
      as [Hgt | Hngt].
    + assert (Hle : (acc * 10 + digit_value c
                     <= decimal_from (acc * 10 + digit_value c) r)%Z)
        by (apply decimal_from_le; [exact Hr | lia]).
      destruct (Z.leb_spec (decimal_from (acc * 10 + digit_value c) r)
                  PY_SSIZE_T_MAX); [lia | reflexivity].
    + apply IH; [exact Hr | lia].
Qed.

Lemma digits_plain index :
  all_chars is_digit index = true ->
  all_chars not_brace index = true /\
  existsb field_special (list_ascii_of_string index) = false.
Proof.
  assert (Hchars : forall c, is_digit c = true ->
                             not_brace c = true /\ field_special c = false).
  { intros c. destruct c as [[] [] [] [] [] [] [] []]; try discriminate;
      split; reflexivity. }
  induction index as [| c index IH]; intros Hindex; [now split |].
  cbn [all_chars] in Hindex. apply andb_true_iff in Hindex as [Hc Hi].
  destruct (Hchars c Hc) as [H1 H2], (IH Hi) as [H3 H4].
  cbn [all_chars list_ascii_of_string existsb].
  now rewrite H1, H2, H3, H4.
Qed.

(** X3. Take a template whose text up to a placeholder is one that [odata]
    accepts on its own, with the same keyword arguments. When the placeholder
    is positional, [{}] or a number between the braces, [odata] raises
    [IndexError], since it hands only keyword arguments to [str.format];
    unless the number is beyond the largest index, [2^63 - 1] on a 64-bit
    build, which [str.format] refuses with [ValueError]. *)
Theorem odata_positional_field
    (pre index post out : string) (kwargs : pydict) :
  odata pre kwargs = Ok out ->
  all_chars is_digit index = true ->
  odata (pre ++ "{" ++ index ++ "}" ++ post) kwargs
  = Raise (if (decimal_value index <=? PY_SSIZE_T_MAX)%Z
           then IndexError else ValueError).
Proof.
  intros Hpre Hindex. cbn [String.append].
  destruct (odata_head_accepted pre (String "{" (index ++ String "}" post))
              kwargs out Hpre) as (out' & ->).
  destruct (digits_plain index Hindex) as [Hnb Hsp].
  rewrite (str_format_placeholder "" index post) by (reflexivity || exact Hnb).
  unfold format_field. rewrite Hsp, Hindex.
  rewrite get_integer_decimal by (exact Hindex || (unfold PY_SSIZE_T_MAX; lia)).
  fold (decimal_value index).
  now destruct (decimal_value index <=? PY_SSIZE_T_MAX)%Z.
Qed.

Lemma odata_positional_field_witness :
  odata ("id eq {id} or id eq " ++ "{" ++ "0" ++ "}" ++ "") [("id", VInt 7)]
  = Raise IndexError /\
  odata ("id eq {id} or id eq " ++ "{" ++ "9223372036854775808" ++ "}" ++ "")
    [("id", VInt 7)]
  = Raise ValueError.
Proof.
  split.
  - apply (odata_positional_field "id eq {id} or id eq " "0" ""
             "id eq 7 or id eq " [("id", VInt 7)]);
      reflexivity.
  - apply (odata_positional_field "id eq {id} or id eq "
             "9223372036854775808" "" "id eq 7 or id eq " [("id", VInt 7)]);
      reflexivity.
Defined.

Section DictAppend.

Context {V : Type}.
Implicit Types (k : string) (v : V) (d : list (string * V)).

Lemma dict_get_app_fresh k d1 d2 :
  ~ In k (dict_keys d1) -> dict_get k (d1 ++ d2)%list = dict_get k d2.
Proof.
  induction d1 as [| [k' v'] d1 IH]; cbn; intros H; [reflexivity |].
  destruct (String.eqb_spec k' k) as [-> | Hne]; [tauto |].
  apply IH. tauto.
Qed.

Lemma dict_set_app_fresh k v d1 d2 :
  ~ In k (dict_keys d1) ->
  dict_set k v (d1 ++ d2)%list = (d1 ++ dict_set k v d2)%list.
Proof.
  induction d1 as [| [k' v'] d1 IH]; cbn; intros H; [reflexivity |].
  destruct (String.eqb_spec k' k) as [-> | Hne]; [tauto |].
  rewrite IH; [reflexivity | tauto].
Qed.

Lemma distinct_app_cons (keys1 keys2 : list string) k :
  distinct (keys1 ++ k :: keys2)%list = true -> ~ In k keys1.
Proof.
  induction keys1 as [| k1 keys1 IH]; intros H; [tauto |].
  apply distinct_cons in H as [Hk1 H]. intros [-> | Hin].
  - apply Hk1, in_or_app. right. now left.
  - now apply IH.
Qed.

End DictAppend.

Lemma dict_keys_odata_entry statement kw :
  dict_keys (map (odata_entry statement) kw) = dict_keys kw.
Proof.
  unfold dict_keys. rewrite map_map. apply map_ext. intros [k v].
  unfold odata_entry. cbn [fst snd].
  destruct v; try reflexivity. now destruct (contains _ _).
Qed.

Lemma odata_step_entry statement k v kw :
  odata_step statement ((k, v) :: kw) k
  = odata_entry statement (k, v) :: kw.
Proof.
  unfold odata_step, odata_entry. cbn [dict_get fst snd].
  rewrite String.eqb_refl.
  destruct v; try reflexivity.
  destruct (contains _ _); cbn [negb]; [reflexivity |].
  cbn [dict_set]. now rewrite String.eqb_refl.
Qed.

Lemma odata_step_app_fresh statement done kw k :
  ~ In k (dict_keys done) ->
  odata_step statement (done ++ kw)%list k
  = (done ++ odata_step statement kw k)%list.
Proof.
  intros H. unfold odata_step. rewrite dict_get_app_fresh by exact H.
  destruct (dict_get k kw) as [[] |]; try reflexivity.
  destruct (negb _); [| reflexivity].
  now apply dict_set_app_fresh.
Qed.

Lemma odata_loop_entries statement todo done :
  distinct (dict_keys (done ++ todo)%list) = true ->
  fold_left (odata_step statement) (dict_keys todo) (done ++ todo)%list
  = (done ++ map (odata_entry statement) todo)%list.
Proof.
  revert done. induction todo as [| [k v] todo IH]; intros done H;
    [reflexivity |].
  cbn [dict_keys map fst fold_left].
  assert (Hk : ~ In k (dict_keys done)).
  { unfold dict_keys in H. rewrite map_app in H. cbn [map fst] in H.
    now apply distinct_app_cons in H. }
  rewrite odata_step_app_fresh by exact Hk.
  rewrite odata_step_entry.
  change (done ++ odata_entry statement (k, v) :: todo)%list
    with (done ++ [odata_entry statement (k, v)] ++ todo)%list.
  rewrite app_assoc.
  change (fold_left (odata_step statement) (map fst todo))
    with (fold_left (odata_step statement) (dict_keys todo)).
  rewrite IH.
  - now rewrite <- app_assoc.
  - rewrite <- app_assoc. unfold dict_keys in *.
    rewrite map_app in *. cbn [map app] in *.
    replace (fst (odata_entry statement (k, v))) with k; [exact H |].
    unfold odata_entry. cbn [fst snd]. destruct v; try reflexivity.
    now destruct (contains _ _).
Qed.

Lemma odata_entries statement kwargs :
  distinct (dict_keys kwargs) = true ->
  odata statement kwargs
  = str_format statement (map (odata_entry statement) kwargs).
Proof.
  intros H. unfold odata.
  pose proof (odata_loop_entries statement kwargs [] H) as E.
  cbn [app] in E. now rewrite E.
Qed.

(** X4. The loop of [odata], which rewrites the dict of keyword arguments in
    place, treats every keyword argument on its own: the result is
    [str.format] over the arguments with each textual value either escaped
    and quoted or, when the template quotes its placeholder, left as it is,
    and with every other value untouched. Keyword arguments have distinct
    names. *)
Theorem odata_treats_each_keyword_on_its_own
    (statement : string) (kwargs : pydict) :
  distinct (dict_keys kwargs) = true ->
  odata statement kwargs
  = str_format statement (map (odata_entry statement) kwargs).
Proof. apply odata_entries. Qed.

Lemma odata_treats_each_keyword_on_its_own_witness :
  odata "name eq {name} and city eq '{city}'"
    [("name", VStr "O'Neil"); ("city", VStr "Coeur d'Alene")]
  = str_format "name eq {name} and city eq '{city}'"
      (map (odata_entry "name eq {name} and city eq '{city}'")
         [("name", VStr "O'Neil"); ("city", VStr "Coeur d'Alene")]).
Proof.
  apply (odata_treats_each_keyword_on_its_own
           "name eq {name} and city eq '{city}'"
           [("name", VStr "O'Neil"); ("city", VStr "Coeur d'Alene")]).
  reflexivity.
Defined.




Lemma escape_quotes_eq (a b : string) :
  escape_quotes a = escape_quotes b -> a = b.
Proof.
  revert b. induction a as [| x a IH]; intros [| y b]; cbn [escape_quotes].
  - reflexivity.
  - destruct (Ascii.eqb y "'"); discriminate.
  - destruct (Ascii.eqb x "'"); discriminate.
  - destruct (Ascii.eqb_spec x "'") as [-> | Hx],
             (Ascii.eqb_spec y "'") as [-> | Hy].
    + intros [= H]. f_equal. now apply IH.
    + intros [= E _]. congruence.
    + intros [= E _]. congruence.
    + intros [= -> H]. f_equal. now apply IH.
Qed.

(** X6. Doubling the single quotes loses nothing: two different values never
    have the same escaped text. *)
Theorem escape_quotes_injective (a b : string) :
  a <> b -> escape_quotes a <> escape_quotes b.
Proof. intros Hne E. now apply Hne, escape_quotes_eq. Qed.

Lemma escape_quotes_injective_witness :
  escape_quotes "O'Neil" <> escape_quotes "O''Neil".
Proof.
  apply (escape_quotes_injective "O'Neil" "O''Neil"). discriminate.
Defined.

(** ** Rows and pages *)

Lemma dict_set_same {V : Type} k (v : V) d :
  dict_get k d = Some v -> dict_set k v d = d.
Proof.
  induction d as [| [k' v'] d IH]; cbn; [discriminate |].
  destruct (String.eqb k' k); [congruence |].
  intros H. now rewrite IH.
Qed.

Lemma adapted_bag_twice result bag :
  adapted_bag result (adapted_bag result bag) = adapted_bag result bag.
Proof.
  unfold adapted_bag at 1.
  rewrite (dict_set_same search_score)
    by (rewrite adapted_bag_get; reflexivity).
  apply dict_set_same. rewrite adapted_bag_get. reflexivity.
Qed.

(** X7. Adapting a row a second time changes nothing: the call returns the
    same mapping, and the store is the one the first call left. *)
Theorem convert_search_result_idempotent (result : SearchResult) (h : heap) :
  convert_search_result result (convert_search_result result h).2
  = convert_search_result result h.
Proof.
  unfold convert_search_result, setitem. cbn [fst snd]. f_equal.
  apply map_eq. intros l.
  destruct (decide (l = additional_properties result)) as [-> | Hne].
  - rewrite !lookup_alter_eq.
    destruct (h !! additional_properties result) as [bag |]; [| reflexivity].
    cbn. f_equal. apply (adapted_bag_twice result bag).
  - now rewrite !lookup_alter_ne by congruence.
Qed.

Section Rows.

Context {SearchRequest : Type} `{!ProtocolModel SearchRequest}.

Lemma extract_data_loop rs : forall rows h,
  fold_left
    (fun '(rows, h) r =>
       let '(ret, h) := convert_search_result r h in ((rows ++ [ret])%list, h))
    rs (rows, h)
  = ((rows ++ map additional_properties rs)%list, adapt_rows rs h).
Proof.
  induction rs as [| r rs IH]; intros rows h; cbn [fold_left map].
  - now rewrite app_nil_r.
  - unfold convert_search_result at 2. rewrite IH.
    now rewrite <- app_assoc.
Qed.

Lemma extract_data_cb_unfold (_response : SearchDocumentsResult) h :
  _extract_data_cb _response h
  = (pack_continuation_token _response,
     map additional_properties (results _response),
     adapt_rows (results _response) h).
Proof.
  unfold _extract_data_cb. now rewrite extract_data_loop.
Qed.

End Rows.

Lemma adapt_rows_frame rs : forall h l,
  ~ In l (map additional_properties rs) ->
  adapt_rows rs h !! l = h !! l.
Proof.
  induction rs as [| r rs IH]; intros h l Hl; [reflexivity |].
  cbn [adapt_rows fold_left]. fold (adapt_rows rs).
  rewrite IH by (cbn in Hl; tauto).
  apply convert_search_result_frame. cbn in Hl. intros ->. tauto.
Qed.

Lemma adapt_rows_present rs : forall h l bag,
  h !! l = Some bag -> exists bag', adapt_rows rs h !! l = Some bag'.
Proof.
  induction rs as [| r rs IH]; intros h l bag Hl; [now exists bag |].
  cbn [adapt_rows fold_left]. fold (adapt_rows rs).
  destruct (decide (l = additional_properties r)) as [-> | Hne].
  - eapply IH, convert_search_result_heap, Hl.
  - eapply IH. rewrite convert_search_result_frame by exact Hne. exact Hl.
Qed.

Lemma adapt_rows_distinct rs : forall h r bag,
  NoDup (map additional_properties rs) ->
  In r rs ->
  h !! additional_properties r = Some bag ->
  adapt_rows rs h !! additional_properties r = Some (adapted_bag r bag).
Proof.
  induction rs as [| r0 rs IH]; intros h r bag Hnd Hin Hbag; [destruct Hin |].
  cbn [adapt_rows fold_left]. fold (adapt_rows rs).
  cbn [map] in Hnd. apply NoDup_cons in Hnd as [Hr0 Hnd].
  destruct Hin as [-> | Hin].
  - rewrite adapt_rows_frame by (intros H; apply Hr0; now apply list_elem_of_In).
    now apply convert_search_result_heap.
  - apply IH; [exact Hnd | exact Hin |].
    rewrite convert_search_result_frame; [exact Hbag |].
    intros E. apply Hr0. apply list_elem_of_In. rewrite <- E. now apply in_map.
Qed.

Lemma adapt_rows_other_keys rs : forall h l bag,
  h !! l = Some bag ->
  exists bag',
    adapt_rows rs h !! l = Some bag' /\
    forall k, k <> search_score -> k <> search_highlights ->
              dict_get k bag' = dict_get k bag.
Proof.
  induction rs as [| r rs IH]; intros h l bag Hl; [now exists bag |].
  cbn [adapt_rows fold_left]. fold (adapt_rows rs).
  destruct (decide (l = additional_properties r)) as [-> | Hne].
  - destruct (IH _ _ _ (convert_search_result_heap r h bag Hl))
      as (bag' & Hbag' & Hkeys).
    exists bag'. split; [exact Hbag' |].
    intros k Hs Hh. rewrite Hkeys by assumption. rewrite adapted_bag_get.
    destruct (String.eqb_spec search_highlights k); [congruence |].
    destruct (String.eqb_spec search_score k); [congruence | reflexivity].
  - apply IH. rewrite convert_search_result_frame by exact Hne. exact Hl.
Qed.

(** X8. [_extract_data_cb] on a response whose rows have field bags of their
    own: the token is the one [pack_continuation_token] makes for the
    response, there is one mapping per row, in the order of the rows, each
    mapping is the field bag of its row with the two reserved keys stored in
    it, and no other object of the store is touched. *)
Theorem extract_data_cb_adapts_each_row
    {SearchRequest : Type} `{!ProtocolModel SearchRequest}
    (_response : SearchDocumentsResult) (h : heap) :
  NoDup (map additional_properties (results _response)) ->
  let continuation_token := (_extract_data_cb _response h).1.1 in
  let rows := (_extract_data_cb _response h).1.2 in
  let h' := (_extract_data_cb _response h).2 in
  continuation_token = pack_continuation_token _response /\
  rows = map additional_properties (results _response) /\
  (forall r bag,
      In r (results _response) ->
      h !! additional_properties r = Some bag ->
      h' !! additional_properties r = Some (adapted_bag r bag)) /\
  (forall l, ~ In l rows -> h' !! l = h !! l).
Proof.
  intros Hnd. rewrite extract_data_cb_unfold. cbn [fst snd].
  split; [reflexivity |]. split; [reflexivity |]. split.
  - intros r bag Hin Hbag. now apply adapt_rows_distinct.
  - intros l Hl. now apply adapt_rows_frame.
Qed.

Lemma extract_data_cb_adapts_each_row_witness :
  let continuation_token := (_extract_data_cb two_row_response two_row_heap).1.1 in
  let rows := (_extract_data_cb two_row_response two_row_heap).1.2 in
  let h' := (_extract_data_cb two_row_response two_row_heap).2 in
  continuation_token = pack_continuation_token two_row_response /\
  rows = map additional_properties (results two_row_response) /\
  (forall r bag,
      In r (results two_row_response) ->
      two_row_heap !! additional_properties r = Some bag ->
      h' !! additional_properties r = Some (adapted_bag r bag)) /\
  (forall l, ~ In l rows -> h' !! l = two_row_heap !! l).
Proof.
  apply (extract_data_cb_adapts_each_row two_row_response two_row_heap).
  refine (bool_decide_unpack _ _). vm_compute. exact I.
Defined.

(** X9. When several rows of a response refer to one field bag, the bag ends
    with the score and the highlights of the last of them, since every row
    is adapted in place; the other keys of the bag are as they were. *)
Theorem extract_data_cb_last_row_wins
    {SearchRequest : Type} `{!ProtocolModel SearchRequest}
    (_response : SearchDocumentsResult) (h : heap)
    (before after : list SearchResult) (r : SearchResult) (bag : pydict) :
  results _response = (before ++ r :: after)%list ->
  (forall r', In r' after ->
              additional_properties r' <> additional_properties r) ->
  h !! additional_properties r = Some bag ->
  exists out,
    (_extract_data_cb _response h).2 !! additional_properties r = Some out /\
    dict_get search_score out = Some (score r) /\
    dict_get search_highlights out = Some (highlights r) /\
    (forall k, k <> search_score -> k <> search_highlights ->
               dict_get k out = dict_get k bag).
Proof.
  intros Hrows Hafter Hbag. rewrite extract_data_cb_unfold. cbn [snd].
  rewrite Hrows. unfold adapt_rows. rewrite fold_left_app.
  cbn [fold_left]. fold (adapt_rows before h).
  destruct (adapt_rows_other_keys before h _ bag Hbag) as (bag1 & Hbag1 & Hkeys).
  fold (adapt_rows after (convert_search_result r (adapt_rows before h)).2).
  rewrite adapt_rows_frame.
  - rewrite (convert_search_result_heap _ _ _ Hbag1).
    exists (adapted_bag r bag1). split; [reflexivity |].
    rewrite !adapted_bag_get. cbn. split; [reflexivity |].
    split; [reflexivity |].
    intros k Hs Hh. rewrite adapted_bag_get.
    destruct (String.eqb_spec search_highlights k); [congruence |].
    destruct (String.eqb_spec search_score k); [congruence |].
    now apply Hkeys.
  - intros Hin. apply in_map_iff in Hin as (r' & E & Hin).
    now apply (Hafter r' Hin).
Qed.

Lemma extract_data_cb_last_row_wins_witness :
  exists out,
    (_extract_data_cb shared_bag_response example_heap).2 !! 0 = Some out /\
    dict_get search_score out = Some (VFloat "1.25") /\
    dict_get search_highlights out = Some VNone /\
    (forall k, k <> search_score -> k <> search_highlights ->
               dict_get k out = dict_get k [("id", VStr "1")]).
Proof.
  apply (extract_data_cb_last_row_wins shared_bag_response example_heap
           [example_row] [] rescored_row [("id", VStr "1")]).
  - reflexivity.
  - intros r' [].
  - reflexivity.
Defined.

(** ** The continuation-token codec, continued *)

(** X10. A token identifies the page it was made for: two responses that
    [pack_continuation_token] maps to the same token have the same link and
    the same paging parameters. Their rows play no part. *)
Theorem pack_continuation_token_injective
    {SearchRequest : Type} `{!ProtocolModel SearchRequest}
    (Hlaws : ProtocolModelLaws SearchRequest)
    (response1 response2 : SearchDocumentsResult) (token : pydata) :
  pack_continuation_token response1 = Some token ->
  pack_continuation_token response2 = Some token ->
  next_link response1 = next_link response2 /\
  next_page_parameters response1 = next_page_parameters response2.
Proof.
  intros H1 H2.
  destruct (next_page_parameters response1) as [p1 |] eqn:E1;
    [| unfold pack_continuation_token in H1; rewrite E1 in H1; discriminate].
  destruct (next_page_parameters response2) as [p2 |] eqn:E2;
    [| unfold pack_continuation_token in H2; rewrite E2 in H2; discriminate].
  rewrite (pack_continuation_token_encode response1 p1 E1) in H1.
  rewrite (pack_continuation_token_encode response2 p2 E2) in H2.
  assert (E : encode_token (token_object (next_link response1) p1)
              = encode_token (token_object (next_link response2) p2))
    by congruence.
  clear H1 H2.
  apply (f_equal (fun t => b64decode t ≫= json_loads)) in E.
  unfold encode_token in E. rewrite !b64decode_b64encode in E.
  cbn [mbind result_bind] in E.
  pose proof (json_ok_token_object (next_link response1) p1) as Hok1.
  pose proof (json_ok_token_object (next_link response2) p2) as Hok2.
  unfold token_object in *.
  rewrite (json_loads_json_dumps _ Hok1), (json_loads_json_dumps _ Hok2) in E.
  injection E as El Ep. split; [exact El |].
  apply (f_equal deserialize) in Ep. rewrite !deserialize_serialize in Ep.
  congruence.
Qed.

Lemma pack_continuation_token_injective_witness :
  next_link example_response = next_link empty_page_response /\
  next_page_parameters example_response
  = next_page_parameters empty_page_response.
Proof.
  apply (pack_continuation_token_injective PagingRequest_laws
           example_response empty_page_response example_token);
    vm_compute; reflexivity.
Defined.

(** X11. What [unpack_continuation_token] does with the token of a JSON
    object. A missing [nextLink] raises [KeyError] for that key, also when
    [nextPageParameters] is missing too; a missing [nextPageParameters]
    raises [KeyError] for it; an error of [SearchRequest.deserialize] is
    passed on, so the parameters are checked although they are not
    returned; otherwise the value stored under [nextLink] is returned as it
    is, whatever its type. *)
Theorem unpack_continuation_token_reads_two_entries
    {SearchRequest : Type} `{!ProtocolModel SearchRequest} (d : pydict) :
  json_ok (VDict d) = true ->
  unpack_continuation_token (encode_token (VDict d))
  = match dict_get "nextLink" d with
    | None => Raise (KeyError "nextLink")
    | Some link =>
        match dict_get "nextPageParameters" d with
        | None => Raise (KeyError "nextPageParameters")
        | Some parameters =>
            match deserialize (T := SearchRequest) parameters with
            | Ok _ => Ok link
            | Raise e => Raise e
            | Unmodelled => Unmodelled
            end
        end
    end.
Proof.
  intros Hok. rewrite unpack_encode_token by exact Hok. cbn [getitem].
  destruct (dict_get "nextLink" d); [| reflexivity].
  destruct (dict_get "nextPageParameters" d); reflexivity.
Qed.

Lemma unpack_continuation_token_reads_two_entries_witness :
  unpack_continuation_token (SearchRequest := PagingRequest)
    (encode_token (VDict [("nextLink", VInt 5);
                          ("nextPageParameters", VDict [])]))
  = Ok (VInt 5).
Proof.
  exact (unpack_continuation_token_reads_two_entries
           (SearchRequest := PagingRequest)
           [("nextLink", VInt 5); ("nextPageParameters", VDict [])] eq_refl).
Defined.

Lemma a2b_base64_skips c (Hc : is_b64_char c = false) s1 : forall s2 q pads,
  a2b_base64 (s1 ++ String c s2) q pads = a2b_base64 (s1 ++ s2) q pads.
Proof.
  unfold is_b64_char in Hc.
  induction s1 as [| x s1 IH]; intros s2 q pads.
  - cbn [String.append a2b_base64].
    destruct (a2b c); [discriminate |]. now rewrite Hc.
  - cbn [String.append a2b_base64].
    destruct (Ascii.eqb x BASE64_PAD).
    + destruct (Nat.leb 2 (quad_pos q)); [| apply IH].
      destruct (Nat.leb 4 (quad_pos q + S pads)); [reflexivity | apply IH].
    + destruct (a2b x); [| apply IH].
      destruct q; now rewrite IH.
Qed.

Lemma all_chars_insert p c (before after : string) :
  all_chars p (before ++ String c after)
  = p c && all_chars p (before ++ after).
Proof.
  induction before as [| x before IH]; cbn [String.append all_chars];
    [reflexivity |].
  rewrite IH. now destruct (p x), (p c).
Qed.

(** X12. [unpack_continuation_token] decodes with the default of [b64decode],
    which skips every byte that is neither of the base-64 alphabet nor the
    padding sign. A token of [bytes] with such a byte (a line break, a
    blank, a byte above 127) put in anywhere decodes exactly like the token
    without it, and so does a [str] token when the character put in is
    ASCII. A [str] token with a character that is not ASCII is refused with
    [ValueError]. *)
Theorem unpack_continuation_token_skips_other_characters
    {SearchRequest : Type} `{!ProtocolModel SearchRequest}
    (c : ascii) (before after : string) :
  is_b64_char c = false ->
  unpack_continuation_token (Bytes (before ++ String c after))
  = unpack_continuation_token (Bytes (before ++ after)) /\
  (is_ascii c = true ->
   unpack_continuation_token (Str (before ++ String c after))
   = unpack_continuation_token (Str (before ++ after))) /\
  (is_ascii c = false ->
   unpack_continuation_token (Str (before ++ String c after))
   = Raise ValueError).
Proof.
  intros Hc. unfold unpack_continuation_token, b64decode.
  cbn [_bytes_from_decode_data]. rewrite all_chars_insert.
  split; [| split].
  - cbn [mbind result_bind]. now rewrite a2b_base64_skips.
  - intros ->. cbn [andb].
    destruct (all_chars is_ascii (before ++ after)); [| reflexivity].
    cbn [mbind result_bind]. now rewrite a2b_base64_skips.
  - intros ->. reflexivity.
Qed.

Lemma unpack_continuation_token_skips_other_characters_witness :
  unpack_continuation_token (SearchRequest := PagingRequest)
    (Bytes ("eyJh" ++ String "010" "cGlW"))
  = unpack_continuation_token (SearchRequest := PagingRequest)
      (Bytes ("eyJh" ++ "cGlW")) /\
  (is_ascii "010" = true ->
   unpack_continuation_token (SearchRequest := PagingRequest)
     (Str ("eyJh" ++ String "010" "cGlW"))
   = unpack_continuation_token (SearchRequest := PagingRequest)
       (Str ("eyJh" ++ "cGlW"))) /\
  (is_ascii "010" = false ->
   unpack_continuation_token (SearchRequest := PagingRequest)
     (Str ("eyJh" ++ String "010" "cGlW"))
   = Raise ValueError).
Proof.
  apply (unpack_continuation_token_skips_other_characters
           (SearchRequest := PagingRequest) "010" "eyJh" "cGlW").
  reflexivity.
Defined.

(** ** The request paths *)

Section RequestFacts.

Context {SearchRequest SuggestRequest AutocompleteRequest reply : Type}.
Variable search_text_request : string -> SearchRequest.
Variables int_of_reply results_as_dicts batch_results : reply -> reply.

#[local] Abbreviation call' := (call SearchRequest SuggestRequest AutocompleteRequest).
#[local] Abbreviation argval' := (argval SearchRequest SuggestRequest AutocompleteRequest).
#[local] Abbreviation kwargs' := (list (string * argval')).

Variable transport : call' -> result reply.

Implicit Types (self : client) (kwargs named : kwargs') (log : list call').

Lemma dict_set_set {V : Type} k (v1 v2 : V) d :
  dict_set k v2 (dict_set k v1 d) = dict_set k v2 d.
Proof.
  induction d as [| [k' v'] d IH]; cbn.
  - now rewrite String.eqb_refl.
  - destruct (String.eqb k' k) eqn:E; cbn; rewrite E; [reflexivity |].
    now rewrite IH.
Qed.

(** A request path: the headers are merged into the keyword arguments, the
    transport is called once, and its reply is read through [f]. *)
Lemma request_run self method args named (f : reply -> reply) kwargs log :
  and_then (with_client_headers self kwargs) (fun kwargs =>
  and_then (invoke transport method args named kwargs) (fun r =>
  lift (Ok (f r)))) log
  = match _merge_client_headers self (dict_get "headers" kwargs) with
    | Ok merged =>
        let kwargs := dict_set "headers" merged kwargs in
        if existsb (fun name => bool_decide (is_Some (dict_get name kwargs)))
             (dict_keys named)
        then (Raise TypeError, log)
        else
          let c := {| call_method := method; call_args := args;
                      call_kwargs := (named ++ kwargs)%list |} in
          (f <$> transport c, (log ++ [c])%list)
    | Raise e => (Raise e, log)
    | Unmodelled => (Unmodelled, log)
    end.
Proof.
  unfold with_client_headers, and_then, lift, invoke.
  destruct (_merge_client_headers self (dict_get "headers" kwargs));
    try reflexivity.
  cbv zeta. destruct (existsb _ _); [reflexivity |].
  destruct (transport _); reflexivity.
Qed.

Lemma get_document_run self key selected_fields kwargs log :
  get_document transport self key selected_fields kwargs log
  = and_then (with_client_headers self kwargs) (fun kwargs =>
    and_then (invoke transport "documents.get" []
                [("key", AVal key);
                 ("selected_fields", AVal selected_fields)] kwargs)
      (fun r => lift (Ok (id r)))) log.
Proof.
  unfold get_document, with_client_headers, and_then, lift, invoke.
  destruct (_merge_client_headers self (dict_get "headers" kwargs));
    try reflexivity.
  destruct (existsb _ _); [reflexivity |].
  destruct (transport _); reflexivity.
Qed.

Lemma request_sends self method args named (f : reply -> reply) kwargs
    log out log' :
  dict_get "headers" named = None ->
  and_then (with_client_headers self kwargs) (fun kwargs =>
  and_then (invoke transport method args named kwargs) (fun r =>
  lift (Ok (f r)))) log = (out, log') ->
  log' = log \/
  exists merged c,
    _merge_client_headers self (dict_get "headers" kwargs) = Ok merged /\
    log' = (log ++ [c])%list /\
    out = f <$> transport c /\
    call_method c = method /\
    call_args c = args /\
    call_headers c = Some merged /\
    (forall name v, name <> "headers" -> dict_get name kwargs = Some v ->
                    dict_get name (call_kwargs c) = Some v).
Proof.
  intros Hnamed. rewrite request_run.
  destruct (_merge_client_headers self (dict_get "headers" kwargs))
    as [merged | e |] eqn:Hm; [| intros [= <- <-]; now left ..].
  cbv zeta. destruct (existsb _ _) eqn:Hex; [intros [= <- <-]; now left |].
  intros [= <- <-]. right. eexists _, _.
  do 5 (split; [reflexivity |]). split.
  - unfold call_headers. cbn [call_kwargs].
    rewrite dict_get_app_fresh by (now apply dict_get_None_notin).
    apply dict_get_set_eq.
  - intros name v Hne Hget. cbn [call_kwargs].
    assert (Hget' : dict_get name (dict_set "headers" merged kwargs) = Some v)
      by (rewrite dict_get_set_ne; [exact Hget | congruence]).
    rewrite dict_get_app_fresh; [exact Hget' |].
    intros Hin.
    assert (Hex' : existsb
              (fun name => bool_decide
                 (is_Some (dict_get name (dict_set "headers" merged kwargs))))
              (dict_keys named) = true); [| congruence].
    apply existsb_exists. exists name. split; [exact Hin |].
    apply bool_decide_eq_true. rewrite Hget'. now exists v.
Qed.

(** The four document helpers merge the headers and then go through
    [index_documents], which merges them again. *)
Lemma submit_documents_run kind self documents kwargs log :
  submit_documents batch_results transport kind self documents kwargs log
  = match _merge_client_headers self (dict_get "headers" kwargs) with
    | Ok merged =>
        and_then
          (with_client_headers self (dict_set "headers" merged kwargs))
          (fun kwargs =>
           and_then (invoke transport "documents.index" []
                       [("batch", AIndexBatch (map (pair kind) documents))]
                       kwargs)
             (fun r => lift (Ok (batch_results r)))) log
    | Raise e => (Raise e, log)
    | Unmodelled => (Unmodelled, log)
    end.
Proof.
  unfold submit_documents, index_documents, add_documents.
  unfold with_client_headers at 1. unfold and_then at 1 2, lift at 1 2.
  destruct (_merge_client_headers self (dict_get "headers" kwargs));
    reflexivity.
Qed.

#[local] Abbreviation at_most_one_call run P :=
  (forall log out log',
      run log = (out, log') ->
      log' = log \/ exists c, log' = (log ++ [c])%list /\ P c out).

#[local] Abbreviation forwarded self kwargs c :=
  (exists merged,
      _merge_client_headers self (dict_get "headers" kwargs) = Ok merged /\
      call_headers c = Some merged /\
      forall name v, name <> "headers" -> dict_get name kwargs = Some v ->
                     dict_get name (call_kwargs c) = Some v).

Ltac by_request_sends H :=
  apply request_sends in H; [| reflexivity];
  destruct H as [-> | (merged & c & Hm & -> & -> & Hmethod & Hargs & Hh & Hkw)];
  [now left | right; exists c; split; [reflexivity |]].

(** X13. [get_document_count], [get_document], [suggest], [autocomplete] and
    [index_documents] record at most one transport call after those recorded
    before, and a call they record carries, as its headers, what
    [_merge_client_headers] made of the caller's headers, and with them every
    other keyword argument of the caller, unchanged. *)
Theorem requests_carry_merged_headers self kwargs :
  at_most_one_call (get_document_count int_of_reply transport self kwargs)
    (fun c _ => forwarded self kwargs c) /\
  (forall key selected_fields,
      at_most_one_call (get_document transport self key selected_fields kwargs)
        (fun c _ => forwarded self kwargs c)) /\
  (forall query,
      at_most_one_call (suggest results_as_dicts transport self query kwargs)
        (fun c _ => forwarded self kwargs c)) /\
  (forall query,
      at_most_one_call (autocomplete results_as_dicts transport self query kwargs)
        (fun c _ => forwarded self kwargs c)) /\
  (forall batch,
      at_most_one_call (index_documents batch_results transport self batch kwargs)
        (fun c _ => forwarded self kwargs c)).
Proof.
  repeat split.
  - intros log out log' H. unfold get_document_count in H.
    by_request_sends H. now exists merged.
  - intros key selected_fields log out log' H. rewrite get_document_run in H.
    by_request_sends H. now exists merged.
  - intros query log out log' H.
    destruct query as [v | r | request | r];
      try (injection H as <- <-; now left).
    change (suggest results_as_dicts transport self (OSuggestQuery request)
              kwargs log)
      with (and_then (with_client_headers self kwargs) (fun kwargs =>
            and_then (invoke transport "documents.suggest_post" []
                        [("suggest_request", ASuggestRequest request)] kwargs)
              (fun r => lift (Ok (results_as_dicts r)))) log) in H.
    by_request_sends H. now exists merged.
  - intros query log out log' H.
    destruct query as [v | r | r | request];
      try (injection H as <- <-; now left).
    change (autocomplete results_as_dicts transport self
              (OAutocompleteQuery request) kwargs log)
      with (and_then (with_client_headers self kwargs) (fun kwargs =>
            and_then (invoke transport "documents.autocomplete_post" []
                        [("autocomplete_request", AAutocompleteRequest request)]
                        kwargs)
              (fun r => lift (Ok (results_as_dicts r)))) log) in H.
    by_request_sends H. now exists merged.
  - intros batch log out log' H. unfold index_documents in H.
    by_request_sends H. now exists merged.
Qed.

#[local] Abbreviation returns f := (fun c out => out = f <$> transport c).

(** X14. No request method of the client calls the transport twice or hides
    what the transport did. Each of them records at most one call, after the
    calls recorded before, and when it has recorded one its outcome is the
    outcome of that call, read as the method reads it ([int] of the count,
    the results as dicts, the results of the batch): an exception of the
    transport is the exception of the method. *)
Theorem requests_return_transport_outcome self kwargs :
  at_most_one_call (get_document_count int_of_reply transport self kwargs)
    (returns int_of_reply) /\
  (forall key selected_fields,
      at_most_one_call (get_document transport self key selected_fields kwargs)
        (returns id)) /\
  (forall query,
      at_most_one_call (search search_text_request transport self query kwargs)
        (returns id)) /\
  (forall query,
      at_most_one_call (suggest results_as_dicts transport self query kwargs)
        (returns results_as_dicts)) /\
  (forall query,
      at_most_one_call (autocomplete results_as_dicts transport self query kwargs)
        (returns results_as_dicts)) /\
  (forall batch,
      at_most_one_call (index_documents batch_results transport self batch kwargs)
        (returns batch_results)) /\
  (forall documents,
      at_most_one_call
        (upload_documents batch_results transport self documents kwargs)
        (returns batch_results) /\
      at_most_one_call
        (delete_documents batch_results transport self documents kwargs)
        (returns batch_results) /\
      at_most_one_call
        (merge_documents batch_results transport self documents kwargs)
        (returns batch_results) /\
      at_most_one_call
        (merge_or_upload_documents batch_results transport self documents
           kwargs)
        (returns batch_results)).
Proof.
  assert (Hsubmit : forall kind documents,
             at_most_one_call
               (submit_documents batch_results transport kind self documents
                  kwargs)
               (returns batch_results)).
  { intros kind documents log out log' H. rewrite submit_documents_run in H.
    destruct (_merge_client_headers self (dict_get "headers" kwargs));
      [| injection H as <- <-; now left ..].
    by_request_sends H. reflexivity. }
  split; [| split; [| split; [| split; [| split; [| split]]]]];
    [| | | | | | intros documents; repeat split; apply Hsubmit].
  - intros log out log' H. unfold get_document_count in H.
    by_request_sends H. reflexivity.
  - intros key selected_fields log out log' H. rewrite get_document_run in H.
    by_request_sends H. reflexivity.
  - intros query log out log' H.
    assert (Hq : forall request,
               search search_text_request transport self (OSearchQuery request)
                 kwargs log = (out, log') ->
               log' = log \/
               exists c, log' = (log ++ [c])%list /\ out = id <$> transport c).
    { intros request Hr. rewrite search_query in Hr.
      destruct (_merge_client_headers self (dict_get "headers" kwargs));
        injection Hr as <- <-; [| now left ..].
      right. eexists. split; [reflexivity |].
      now destruct (transport _). }
    destruct query as [[] | request | r | r];
      try (injection H as <- <-; now left).
    + apply (Hq (search_text_request s)). exact H.
    + now apply (Hq request).
  - intros query log out log' H.
    destruct query as [v | r | request | r];
      try (injection H as <- <-; now left).
    change (suggest results_as_dicts transport self (OSuggestQuery request)
              kwargs log)
      with (and_then (with_client_headers self kwargs) (fun kwargs =>
            and_then (invoke transport "documents.suggest_post" []
                        [("suggest_request", ASuggestRequest request)] kwargs)
              (fun r => lift (Ok (results_as_dicts r)))) log) in H.
    by_request_sends H. reflexivity.
  - intros query log out log' H.
    destruct query as [v | r | r | request];
      try (injection H as <- <-; now left).
    change (autocomplete results_as_dicts transport self
              (OAutocompleteQuery request) kwargs log)
      with (and_then (with_client_headers self kwargs) (fun kwargs =>
            and_then (invoke transport "documents.autocomplete_post" []
                        [("autocomplete_request", AAutocompleteRequest request)]
                        kwargs)
              (fun r => lift (Ok (results_as_dicts r)))) log) in H.
    by_request_sends H. reflexivity.
  - intros batch log out log' H. unfold index_documents in H.
    by_request_sends H. reflexivity.
Qed.

(** X15. [suggest] takes a [SuggestQuery] and [autocomplete] an
    [AutocompleteQuery], nothing else: for any other argument, a plain
    string included, the result is [TypeError] and no call is recorded. *)
Theorem suggest_and_autocomplete_type_guard self kwargs log :
  (forall query,
      (forall request, query <> OSuggestQuery request) ->
      suggest results_as_dicts transport self query kwargs log
      = (Raise TypeError, log)) /\
  (forall query,
      (forall request, query <> OAutocompleteQuery request) ->
      autocomplete results_as_dicts transport self query kwargs log
      = (Raise TypeError, log)).
Proof.
  split; intros query Hq; destruct query as [v | r | r | r];
    try reflexivity; now destruct (Hq r).
Qed.

(** X16. A caller who passes [suggest_request] to [suggest], or
    [autocomplete_request] to [autocomplete], as a keyword argument gets
    [TypeError], and nothing is sent: the method gives that keyword itself,
    and a keyword given twice stops the call before the transport runs. *)
Theorem request_keyword_given_twice self kwargs log merged v :
  _merge_client_headers self (dict_get "headers" kwargs) = Ok merged ->
  (forall request,
      dict_get "suggest_request" kwargs = Some v ->
      suggest results_as_dicts transport self (OSuggestQuery request) kwargs log
      = (Raise TypeError, log)) /\
  (forall request,
      dict_get "autocomplete_request" kwargs = Some v ->
      autocomplete results_as_dicts transport self (OAutocompleteQuery request)
        kwargs log
      = (Raise TypeError, log)).
Proof.
  intros Hm. split; intros request Hget.
  - change (suggest results_as_dicts transport self (OSuggestQuery request)
              kwargs log)
      with (and_then (with_client_headers self kwargs) (fun kwargs =>
            and_then (invoke transport "documents.suggest_post" []
                        [("suggest_request", ASuggestRequest request)] kwargs)
              (fun r => lift (Ok (results_as_dicts r)))) log).
    rewrite request_run, Hm. cbv zeta. cbn [dict_keys map fst existsb].
    rewrite dict_get_set_ne by discriminate. rewrite Hget.
    now rewrite bool_decide_eq_true_2 by (now exists v).
  - change (autocomplete results_as_dicts transport self
              (OAutocompleteQuery request) kwargs log)
      with (and_then (with_client_headers self kwargs) (fun kwargs =>
            and_then (invoke transport "documents.autocomplete_post" []
                        [("autocomplete_request", AAutocompleteRequest request)]
                        kwargs)
              (fun r => lift (Ok (results_as_dicts r)))) log).
    rewrite request_run, Hm. cbv zeta. cbn [dict_keys map fst existsb].
    rewrite dict_get_set_ne by discriminate. rewrite Hget.
    now rewrite bool_decide_eq_true_2 by (now exists v).
Qed.

Lemma submit_documents_sends kind self documents kwargs log merged merged' :
  _merge_client_headers self (dict_get "headers" kwargs) = Ok merged ->
  _merge_client_headers self (Some merged) = Ok merged' ->
  dict_get "batch" kwargs = None ->
  let c := index_call (map (pair kind) documents)
             (dict_set "headers" merged' kwargs) in
  submit_documents batch_results transport kind self documents kwargs log
  = (batch_results <$> transport c, (log ++ [c])%list).
Proof.
  intros Hm Hm' Hbatch c. rewrite submit_documents_run, Hm, request_run.
  rewrite dict_get_set_eq, Hm'. cbv zeta.
  rewrite dict_set_set. cbn [dict_keys map fst existsb].
  rewrite dict_get_set_ne by discriminate. rewrite Hbatch.
  rewrite bool_decide_eq_false_2 by (intros [? ?]; discriminate).
  reflexivity.
Qed.

(** X17. [upload_documents], [delete_documents], [merge_documents] and
    [merge_or_upload_documents] each record exactly one [documents.index]
    call. Its batch has one action per document, of the kind of the method,
    in the order of the documents, and an empty list of documents still
    sends an empty batch. Its headers are the caller's headers merged twice,
    once by the method and once more by [index_documents]. The result is
    [batch_response.results] of that call. *)
Theorem document_helpers_send_one_batch
    self documents kwargs log merged merged' :
  _merge_client_headers self (dict_get "headers" kwargs) = Ok merged ->
  _merge_client_headers self (Some merged) = Ok merged' ->
  dict_get "batch" kwargs = None ->
  let sent kind :=
    index_call (map (pair kind) documents) (dict_set "headers" merged' kwargs) in
  let outcome kind :=
    (batch_results <$> transport (sent kind), (log ++ [sent kind])%list) in
  upload_documents batch_results transport self documents kwargs log
  = outcome upload /\
  delete_documents batch_results transport self documents kwargs log
  = outcome delete /\
  merge_documents batch_results transport self documents kwargs log
  = outcome merge /\
  merge_or_upload_documents batch_results transport self documents kwargs log
  = outcome mergeOrUpload.
Proof.
  intros Hm Hm' Hbatch sent outcome.
  repeat split; now apply submit_documents_sends with (merged := merged).
Qed.

(** X18. [search] ignores its keyword arguments: two calls with the same
    query behave alike whatever keyword arguments they are given, as long as
    the headers among them can be merged. *)
Theorem search_ignores_keyword_arguments
    self query kwargs1 kwargs2 log merged1 merged2 :
  _merge_client_headers self (dict_get "headers" kwargs1) = Ok merged1 ->
  _merge_client_headers self (dict_get "headers" kwargs2) = Ok merged2 ->
  search search_text_request transport self query kwargs1 log
  = search search_text_request transport self query kwargs2 log.
Proof.
  intros H1 H2.
  destruct query as [[] | request | r | r]; try reflexivity.
  - change (search search_text_request transport self (OVal (VStr s)))
      with (search search_text_request transport self
              (OSearchQuery (search_text_request s))).
    now rewrite !search_query, H1, H2.
  - now rewrite !search_query, H1, H2.
Qed.

End RequestFacts.

Lemma request_keyword_given_twice_witness :
  suggest id echo_transport example_client (OSuggestQuery (text_request "po"))
    [("suggest_request", AVal VNone)] []
  = (Raise TypeError, []).
Proof.
  apply (proj1 (request_keyword_given_twice id echo_transport example_client
                  [("suggest_request", AVal VNone)] []
                  (AVal (VDict (_headers example_client))) (AVal VNone)
                  eq_refl)).
  reflexivity.
Defined.

Lemma document_helpers_send_one_batch_witness :
  let sent kind :=
    index_call (map (pair kind) example_documents)
      (dict_set "headers" example_merged example_kwargs) in
  let outcome kind :=
    (id <$> echo_transport (sent kind), ([] ++ [sent kind])%list) in
  upload_documents id echo_transport example_client example_documents
    example_kwargs [] = outcome upload /\
  delete_documents id echo_transport example_client example_documents
    example_kwargs [] = outcome delete /\
  merge_documents id echo_transport example_client example_documents
    example_kwargs [] = outcome merge /\
  merge_or_upload_documents id echo_transport example_client example_documents
    example_kwargs [] = outcome mergeOrUpload.
Proof.
  apply (document_helpers_send_one_batch id echo_transport example_client
           example_documents example_kwargs [] example_merged example_merged);
    reflexivity.
Defined.

Lemma search_ignores_keyword_arguments_witness :
  search text_request echo_transport example_client (OVal (VStr "pool"))
    example_kwargs []
  = search text_request echo_transport example_client (OVal (VStr "pool"))
      [("timeout", AVal (VInt 5))] [].
Proof.
  apply (search_ignores_keyword_arguments text_request echo_transport
           example_client (OVal (VStr "pool")) example_kwargs
           [("timeout", AVal (VInt 5))] [] example_merged
           (AVal (VDict (_headers example_client))));
    reflexivity.
Defined.

(** ** The text form of the client *)

Lemma all_chars_app p (a b : string) :
  all_chars p (a ++ b) = all_chars p a && all_chars p b.
Proof.
  induction a as [| c a IH]; cbn [String.append all_chars]; [reflexivity |].
  now rewrite IH, andb_assoc.
Qed.

Lemma slice_to_length n : forall s, String.length (slice_to n s) <= n.
Proof.
  unfold slice_to. induction n as [| n IH]; intros [| c s]; cbn; try lia.
  specialize (IH s). lia.
Qed.

Lemma slice_to_all_chars p n : forall s,
  all_chars p s = true -> all_chars p (slice_to n s) = true.
Proof.
  unfold slice_to. induction n as [| n IH]; intros [| c s]; cbn;
    try reflexivity.
  intros H. apply andb_true_iff in H as [Hc Hs].
  rewrite Hc. now apply IH.
Qed.

Lemma slice_to_prefix n : forall s, String.prefix (slice_to n s) s = true.
Proof.
  unfold slice_to. induction n as [| n IH]; intros [| c s]; cbn;
    try reflexivity.
  destruct (ascii_dec c c) as [_ | Hc]; [apply IH | now destruct Hc].
Qed.

Lemma slice_to_short n : forall s, String.length s <= n -> slice_to n s = s.
Proof.
  unfold slice_to. induction n as [| n IH]; intros [| c s]; cbn;
    try reflexivity; try lia.
  intros H. f_equal. apply IH. lia.
Qed.

Lemma repr_quote_cases s : repr_quote s = "'"%char \/ repr_quote s = dquote.
Proof. unfold repr_quote. destruct (_ && _); tauto. Qed.

Lemma repr_char_printable quote c :
  quote = "'"%char \/ quote = dquote ->
  all_chars is_printable (repr_char quote c) = true.
Proof.
  intros [-> | ->]; destruct c as [[] [] [] [] [] [] [] []]; reflexivity.
Qed.

Lemma repr_chars_printable quote s :
  quote = "'"%char \/ quote = dquote ->
  all_chars is_printable (repr_chars quote s) = true.
Proof.
  intros Hq. induction s as [| c s IH]; [reflexivity |].
  cbn [repr_chars]. now rewrite all_chars_app, repr_char_printable, IH.
Qed.

Lemma repr_str_printable s : all_chars is_printable (repr_str s) = true.
Proof.
  unfold repr_str. cbv zeta. pose proof (repr_quote_cases s) as Hq.
  cbn [all_chars]. rewrite all_chars_app, repr_chars_printable by exact Hq.
  destruct Hq as [-> | ->]; reflexivity.
Qed.

(** X19. The text form of a client has at most 1024 characters, all of them
    printable (no control character and no line break, whatever the endpoint
    and the index name hold), and it is the beginning of the full text
    [<SearchIndexClient [endpoint=..., index=...]>]. *)
Theorem repr_is_bounded_and_printable (self : client) :
  String.length (__repr__ self) <= 1024 /\
  all_chars is_printable (__repr__ self) = true /\
  String.prefix (__repr__ self)
    ("<SearchIndexClient [endpoint=" ++ repr_str (_endpoint self)
     ++ ", index=" ++ repr_str (_index_name self) ++ "]>") = true.
Proof.
  unfold __repr__. split; [apply slice_to_length |].
  split; [| apply slice_to_prefix].
  apply slice_to_all_chars.
  rewrite !all_chars_app, !repr_str_printable. reflexivity.
Qed.

Lemma repr_char_plain c : is_plain c = true -> repr_char "'" c = String c "".
Proof.
  destruct c as [[] [] [] [] [] [] [] []]; try discriminate; reflexivity.
Qed.

Lemma repr_chars_plain s :
  all_chars is_plain s = true -> repr_chars "'" s = s.
Proof.
  induction s as [| c s IH]; [reflexivity |]. cbn [all_chars repr_chars].
  intros H. apply andb_true_iff in H as [Hc Hs].
  now rewrite repr_char_plain, IH.
Qed.

Lemma contains_quote_plain s :
  all_chars is_plain s = true -> contains "'" s = false.
Proof.
  induction s as [| c s IH]; [reflexivity |]. cbn [all_chars].
  intros H. apply andb_true_iff in H as [Hc Hs].
  cbn [contains String.prefix]. rewrite (IH Hs).
  destruct c as [[] [] [] [] [] [] [] []]; try discriminate; reflexivity.
Qed.

Lemma repr_str_plain s :
  all_chars is_plain s = true -> repr_str s = "'" ++ s ++ "'".
Proof.
  intros H. unfold repr_str, repr_quote.
  rewrite (contains_quote_plain s H). cbn [andb].
  now rewrite repr_chars_plain.
Qed.

(** X20. For an endpoint and an index name of printable characters without
    single quote and backslash, 981 characters together at most, the text
    form of the client is the full text with the two names between single
    quotes. *)
Theorem repr_of_plain_names (self : client) :
  all_chars is_plain (_endpoint self) = true ->
  all_chars is_plain (_index_name self) = true ->
  String.length (_endpoint self) + String.length (_index_name self) <= 981 ->
  __repr__ self
  = "<SearchIndexClient [endpoint='" ++ _endpoint self
    ++ "', index='" ++ _index_name self ++ "']>".
Proof.
  intros He Hi Hlen. unfold __repr__.
  rewrite (repr_str_plain _ He), (repr_str_plain _ Hi).
  rewrite slice_to_short.
  - flatten. reflexivity.
  - rewrite !length_append. cbn [String.length]. lia.
Qed.

Lemma repr_of_plain_names_witness :
  __repr__ example_client
  = "<SearchIndexClient [endpoint='" ++ _endpoint example_client
    ++ "', index='" ++ _index_name example_client ++ "']>".
Proof.
  apply (repr_of_plain_names example_client).
  - reflexivity.
  - reflexivity.
  - simpl. lia.
Defined.
